(** * sustainability_whatsapp: the webhook receiver of [main.py]

    A shallow embedding of the FastAPI application of [src/main.py] and the
    properties of its four endpoints.

    The handlers are Python coroutines that talk to the outside world: the
    logger, the system clock, the Graph API over HTTP, the [images] folder,
    the EXIF reader of PIL and the process environment.  They are embedded
    as trees of such requests (a free monad over the signature [eff]) and
    run against an arbitrary environment that answers every request,
    possibly with a Python exception.  The theorems quantify over all
    environments. *)

From Stdlib Require Import ZArith Ascii Strings.Byte.
From stdpp Require Import base strings list gmap.

Set Warnings "-register-all".
Local Open Scope string_scope.
Local Open Scope list_scope.

(** ** Python values *)

(** What [json.loads] (and so [request.json()], [response.json()]) yields.
    A [dict] is kept as the list of its items, in insertion order; a key
    occurs once in it and a lookup takes the item with that key.  A [float]
    is kept as its printed text: the program never computes with one. *)
Inductive json : Type :=
| JNull
| JBool (b : bool)
| JInt (n : Z)
| JFloat (repr : string)
| JStr (s : string)
| JList (items : list json)
| JObj (items : list (string * json)).

Fixpoint dict_get {V : Type} (d : list (string * V)) (key : string) : option V :=
  match d with
  | [] => None
  | (k, v) :: d' => if String.eqb k key then Some v else dict_get d' key
  end.

Definition type_name (v : json) : string :=
  match v with
  | JNull => "NoneType"
  | JBool _ => "bool"
  | JInt _ => "int"
  | JFloat _ => "float"
  | JStr _ => "str"
  | JList _ => "list"
  | JObj _ => "dict"
  end.

(** ** Exceptions *)

Inductive exn_class : Type :=
| KeyError
| IndexError
| TypeError
| AttributeError
| HTTPException (status_code : Z)
| LibraryError (name : string).   (* raised inside httpx, aiofiles, PIL, json or the OS *)

(** An instance of (a subclass of) Python's [Exception]: its class and the
    text [str(e)] (the [detail] of an [HTTPException]).  What [except
    Exception] does not catch (the cancellation of the task, the exit of the
    interpreter) is not modelled. *)
Record exn : Type := Exn { exn_class_of : exn_class; exn_msg : string }.

Inductive result (A : Type) : Type :=
| OK (a : A)
| Err (e : exn).
Arguments OK {A} a.
Arguments Err {A} e.

Definition quoted (s : string) : string := "'" +:+ s +:+ "'".

Definition no_attribute (v : json) (attr : string) : exn :=
  Exn AttributeError (quoted (type_name v) +:+ " object has no attribute " +:+ quoted attr).

Definition not_subscriptable (v : json) : exn :=
  Exn TypeError (quoted (type_name v) +:+ " object is not subscriptable").

(** ** The dynamic operations the handlers apply to parsed JSON *)

(** [v.get(key, default)] *)
Definition py_get (v : json) (key : string) (default : json) : result json :=
  match v with
  | JObj d => OK (match dict_get d key with Some x => x | None => default end)
  | _ => Err (no_attribute v "get")
  end.

(** [v[key]] for a string [key] *)
Definition py_item (v : json) (key : string) : result json :=
  match v with
  | JObj d =>
      match dict_get d key with
      | Some x => OK x
      | None => Err (Exn KeyError (quoted key))
      end
  | JList _ => Err (Exn TypeError "list indices must be integers or slices, not str")
  | JStr _ => Err (Exn TypeError "string indices must be integers, not 'str'")
  | _ => Err (not_subscriptable v)
  end.

(** [v[0]] *)
Definition py_first (v : json) : result json :=
  match v with
  | JList (x :: _) => OK x
  | JList [] => Err (Exn IndexError "list index out of range")
  | JStr (String c _) => OK (JStr (String c EmptyString))
  | JStr EmptyString => Err (Exn IndexError "string index out of range")
  | JObj _ => Err (Exn KeyError "0")
  | _ => Err (not_subscriptable v)
  end.

(** [s.split(sep)] for a one-character separator: the pieces between the
    occurrences of [sep], never an empty list. *)
Fixpoint split_on (sep : ascii) (s : string) : list string :=
  match s with
  | EmptyString => [EmptyString]
  | String c s' =>
      if Ascii.eqb c sep then EmptyString :: split_on sep s'
      else match split_on sep s' with
           | p :: ps => String c p :: ps
           | [] => [String c EmptyString]
           end
  end.

(** [v.split("/")] *)
Definition py_split_slash (v : json) : result (list string) :=
  match v with
  | JStr s => OK (split_on "/"%char s)
  | _ => Err (no_attribute v "split")
  end.

(** [parts[1]] on a list of strings *)
Definition py_second (parts : list string) : result string :=
  match parts with
  | _ :: p :: _ => OK p
  | _ => Err (Exn IndexError "list index out of range")
  end.

(** [v == s] for a string literal [s] *)
Definition py_eq_str (v : json) (s : string) : bool :=
  match v with
  | JStr t => String.eqb t s
  | _ => false
  end.

(** ** Text, metadata and messages *)

(** A key of the metadata dictionary: [TAGS.get(tag_id, tag_id)] is the
    name of a known tag and the numeric id of an unknown one. *)
Inductive tag : Type :=
| TagName (name : string)
| TagId (id : Z).

Definition tag_eqb (a b : tag) : bool :=
  match a, b with
  | TagName x, TagName y => String.eqb x y
  | TagId x, TagId y => Z.eqb x y
  | _, _ => false
  end.

(** The dictionary [get_image_metadata] returns, in insertion order. *)
Definition metadata : Type := list (tag * string).

(** An f-string, kept as its pieces: the handlers format arbitrary parsed
    values into URLs, log lines and replies, and never inspect the result. *)
Inductive piece : Type :=
| Lit (s : string)        (* literal text, or a value that is a [str] *)
| Val (v : json)          (* [{v}] for a value parsed from JSON *)
| Dumps (m : metadata).   (* [json.dumps(m, indent=2)] *)

Definition text : Type := list piece.

Inductive level : Type := INFO | WARNING | ERROR.

(** What [httpx] hands back for a request that did not raise. *)
Record response : Type := Response {
  status : Z;
  content : list byte;          (* [response.content] *)
  json_body : result json       (* [response.json()] *)
}.

(** The two JSON documents posted to [/{phone_number_id}/messages]. *)
Inductive outbound : Type :=
| TextMessage (to : json) (body : text) (context_message_id : json)
| ReadReceipt (message_id : json).

(** ** Requests to the outside world *)

Inductive eff : Type -> Type :=
| Log (lvl : level) (msg : text) : eff unit
| Now : eff string
    (* [datetime.now().timestamp()], as the text an f-string prints for it *)
| HttpGet (url : text) (authorization : string) : eff (result response)
| HttpPost (url : text) (authorization : string) (payload : outbound) : eff (result response)
| WriteFile (path : string) (data : list byte) : eff (result unit)
    (* [aiofiles.open(path, "wb")] and one [write(data)] *)
| GetExif (path : string) : eff (result (option (list (Z * string))))
    (* [Image.open(path)._getexif()]: [None] or the tag ids with [str(value)] *)
| GetEnv (name : string) : eff (option string).

(** A request together with the answer it got. *)
Inductive event : Type :=
| ELog (lvl : level) (msg : text)
| ENow (reading : string)
| EGet (url : text) (authorization : string) (answer : result response)
| EPost (url : text) (authorization : string) (payload : outbound) (answer : result response)
| EWrite (path : string) (data : list byte) (answer : result unit)
| EExif (path : string) (answer : result (option (list (Z * string))))
| EEnv (name : string) (answer : option string).

Definition observe {X : Type} (e : eff X) : X -> event :=
  match e in eff X return X -> event with
  | Log lvl msg => fun _ => ELog lvl msg
  | Now => ENow
  | HttpGet url auth => EGet url auth
  | HttpPost url auth payload => EPost url auth payload
  | WriteFile path data => EWrite path data
  | GetExif path => EExif path
  | GetEnv name => EEnv name
  end.

(** ** Handlers as trees of requests *)

Inductive io (A : Type) : Type :=
| Ret (a : A)
| Raise (e : exn)
| Vis {X : Type} (e : eff X) (k : X -> io A).
Arguments Ret {A} a.
Arguments Raise {A} e.
Arguments Vis {A X} e k.

Fixpoint io_bind {A B : Type} (f : A -> io B) (m : io A) : io B :=
  match m with
  | Ret a => f a
  | Raise e => Raise e
  | Vis e k => Vis e (fun x => io_bind f (k x))
  end.

#[export] Instance io_ret : MRet io := @Ret.
#[export] Instance io_mbind : MBind io := @io_bind.

(** [try: m except Exception as e: handler e] *)
Fixpoint try_except {A : Type} (m : io A) (handler : exn -> io A) : io A :=
  match m with
  | Ret a => Ret a
  | Raise e => handler e
  | Vis e k => Vis e (fun x => try_except (k x) handler)
  end.

Definition perform {X : Type} (e : eff X) : io X := Vis e Ret.

(** A pure step that may raise. *)
Definition lift {A : Type} (r : result A) : io A :=
  match r with
  | OK a => Ret a
  | Err e => Raise e
  end.

(** A request whose failure is raised in the handler. *)
Definition call {A : Type} (e : eff (result A)) : io A := Vis e lift.

(** ** Running a handler *)

(** The outside world: its answer to a request, given all that happened
    before. *)
Definition env : Type := forall X : Type, list event -> eff X -> X.

(** The events of a run that starts after history [h]. *)
Fixpoint trace {A : Type} (w : env) (h : list event) (m : io A) : list event :=
  match m with
  | Ret _ | Raise _ => []
  | Vis e k =>
      let x := w _ h e in
      observe e x :: trace w (h ++ [observe e x]) (k x)
  end.

(** How the run ends: the value returned or the exception that escapes. *)
Fixpoint outcome {A : Type} (w : env) (h : list event) (m : io A) : result A :=
  match m with
  | Ret a => OK a
  | Raise e => Err e
  | Vis e k =>
      let x := w _ h e in
      outcome w (h ++ [observe e x]) (k x)
  end.

Definition result_bind {A B : Type} (f : A -> result B) (r : result A) : result B :=
  match r with
  | OK a => f a
  | Err e => Err e
  end.

#[export] Instance result_ret : MRet result := @OK.
#[export] Instance result_mbind : MBind result := @result_bind.

(** ** The application *)

(** The two settings read from the process environment when the module is
    loaded; [None] when the variable is not set. *)
Record config : Type := Config {
  WEBHOOK_VERIFY_TOKEN : option string;
  GRAPH_API_TOKEN : option string
}.

(** The request object of FastAPI, as far as the handler uses it. *)
Record request : Type := Request {
  request_json : result json    (* [await request.json()] *)
}.

Inductive plain_text : Type :=
| PlainTextResponse (content : string).

Definition nl : string := String (ascii_of_nat 10) EmptyString.

Definition graph : string := "https://graph.facebook.com/v18.0/".

(** [str(o)] for a setting *)
Definition str_option (o : option string) : string :=
  match o with
  | Some s => s
  | None => "None"
  end.

Definition json_option (o : option string) : json :=
  match o with
  | Some s => JStr s
  | None => JNull
  end.

(** [s[:n]] *)
Fixpoint py_prefix (n : nat) (s : string) : string :=
  match n, s with
  | S n', String c s' => String c (py_prefix n' s')
  | _, _ => EmptyString
  end.

(** [m[k] = v] *)
Fixpoint dict_set (m : metadata) (k : tag) (v : string) : metadata :=
  match m with
  | [] => [(k, v)]
  | (k', v') :: m' =>
      if tag_eqb k' k then (k', v) :: m' else (k', v') :: dict_set m' k v
  end.

Definition status_ok : json := JObj [("status", JStr "ok")].

Definition one_empty_dict : json := JList [JObj []].

(** [body.get("entry", [{}])[0].get("changes", [{}])[0].get("value", {})],
    the common prefix of lines 80 and 81. *)
Definition value_of (body : json) : result json :=
  entry ← py_get body "entry" one_empty_dict;
  entry0 ← py_first entry;
  changes ← py_get entry0 "changes" one_empty_dict;
  change0 ← py_first changes;
  py_get change0 "value" (JObj []).

(** Line 80. *)
Definition message_of (body : json) : result json :=
  value ← value_of body;
  messages ← py_get value "messages" one_empty_dict;
  py_first messages.

(** Line 81; [.get("phone_number_id")] defaults to [None]. *)
Definition phone_number_id_of (body : json) : result json :=
  value ← value_of body;
  meta ← py_get value "metadata" (JObj []);
  py_get meta "phone_number_id" JNull.

(** Lines 86 to 90: the image id, the caption and the file extension. *)
Definition image_fields (message : json) : result (json * json * string) :=
  image ← py_item message "image";
  image_id ← py_item image "id";
  image ← py_item message "image";
  mime_type ← py_item image "mime_type";
  image ← py_item message "image";
  caption ← py_get image "caption" (JStr "No caption");
  parts ← py_split_slash mime_type;
  file_extension ← py_second parts;
  mret (image_id, caption, file_extension).

(** Line 91, given the reading of the clock. *)
Definition filename_of (timestamp file_extension : string) : string :=
  "image_" +:+ timestamp +:+ "." +:+ file_extension.

(** [os.path.join("images", filename)] for a relative [filename]. *)
Definition images_path (filename : string) : string := "images/" +:+ filename.

Section Handlers.

(** [PIL.ExifTags.TAGS], the table from tag ids to tag names. *)
Variable TAGS : Z -> option string.

Variable cfg : config.

Definition bearer : string := "Bearer " +:+ str_option (GRAPH_API_TOKEN cfg).

(** [TAGS.get(tag_id, tag_id)] *)
Definition tag_of (tag_id : Z) : tag :=
  match TAGS tag_id with
  | Some name => TagName name
  | None => TagId tag_id
  end.

(** One turn of the loop of lines 42 to 44. *)
Definition add_tag (m : metadata) (item : Z * string) : metadata :=
  dict_set m (tag_of item.1) item.2.

(** The loop, from the empty dictionary of line 41. *)
Definition exif_metadata (exif_data : list (Z * string)) : metadata :=
  fold_left add_tag exif_data [].

Definition get_image_metadata (image_path : string) : io metadata :=
  try_except
    (exif_data ← call (GetExif image_path);
     match exif_data with
     | Some ((_ :: _) as items) => mret (exif_metadata items)
     | _ => mret [(TagName "error", "No EXIF data found")]
     end)
    (fun e =>
       perform (Log ERROR [Lit "Error extracting metadata: "; Lit (exn_msg e)]);;
       mret [(TagName "error", exn_msg e)]).

Definition download_and_save_image (image_id : json) (filename : string) : io string :=
  media_url_response ← call (HttpGet [Lit graph; Val image_id] bearer);
  media ← lift (json_body media_url_response);
  media_url ← lift (py_item media "url");
  response ← call (HttpGet [Val media_url] bearer);
  let image_path := images_path filename in
  call (WriteFile image_path (content response));;
  perform (Log INFO [Lit "Image saved: "; Lit filename]);;
  mret image_path.

Definition response_message (caption : json) (m : metadata) : text :=
  [Lit ("Image received and saved successfully!" +:+ nl +:+ "Caption: ");
   Val caption;
   Lit (nl +:+ nl +:+ "Metadata:" +:+ nl);
   Dumps m].

Definition messages_url (business_phone_number_id : json) : text :=
  [Lit graph; Val business_phone_number_id; Lit "/messages"].

(** The body of the [try] statement, lines 94 to 125. *)
Definition process_image (message business_phone_number_id image_id caption : json)
    (filename : string) : io unit :=
  image_path ← download_and_save_image image_id filename;
  m ← get_image_metadata image_path;
  perform (Log INFO [Lit "Image metadata: "; Dumps m]);;
  to ← lift (py_item message "from");
  message_id ← lift (py_item message "id");
  call (HttpPost (messages_url business_phone_number_id) bearer
          (TextMessage to (response_message caption m) message_id));;
  message_id ← lift (py_item message "id");
  call (HttpPost (messages_url business_phone_number_id) bearer
          (ReadReceipt message_id));;
  perform (Log INFO [Lit "Image processed successfully: "; Lit filename]).

Definition error_processing (e : exn) : text :=
  [Lit "Error processing image: "; Lit (exn_msg e)].

(** The [elif] branch, lines 86 to 127. *)
Definition image_branch (message business_phone_number_id : json) : io unit :=
  '(image_id, caption, file_extension) ← lift (image_fields message);
  timestamp ← perform Now;
  let filename := filename_of timestamp file_extension in
  try_except
    (process_image message business_phone_number_id image_id caption filename)
    (fun e => perform (Log ERROR (error_processing e))).

(** [POST /webhook] *)
Definition webhook (req : request) : io json :=
  body ← lift (request_json req);
  perform (Log INFO [Lit "Incoming webhook message: "; Val body]);;
  message ← lift (message_of body);
  business_phone_number_id ← lift (phone_number_id_of body);
  type ← lift (py_get message "type" JNull);
  (if py_eq_str type "text" then perform (Log INFO [Lit "Received text message"])
   else if py_eq_str type "image" then image_branch message business_phone_number_id
   else mret tt);;
  mret status_ok.

(** [GET /webhook] *)
Definition verify_webhook (hub_mode hub_verify_token hub_challenge : string)
    : io plain_text :=
  perform (Log INFO [Lit "Received verification request: mode="; Lit hub_mode;
                     Lit ", token="; Lit hub_verify_token;
                     Lit ", challenge="; Lit hub_challenge]);;
  if String.eqb hub_mode "subscribe"
     && match WEBHOOK_VERIFY_TOKEN cfg with
        | Some secret => String.eqb hub_verify_token secret
        | None => false
        end
  then
    perform (Log INFO [Lit "Webhook verified successfully!"]);;
    mret (PlainTextResponse hub_challenge)
  else
    perform (Log WARNING [Lit "Webhook verification failed"]);;
    Raise (Exn (HTTPException 403) "Forbidden").

(** [GET /] *)
Definition root : io string :=
  perform (Log INFO [Lit "Root endpoint accessed"]);;
  mret ("<pre>Nothing to see here." +:+ nl +:+ "Checkout README.md to start.</pre>").

(** [GET /debug] *)
Definition debug_info : io json :=
  perform (Log INFO [Lit "Debug endpoint accessed"]);;
  port ← perform (GetEnv "PORT");
  mret (JObj [("WEBHOOK_VERIFY_TOKEN", json_option (WEBHOOK_VERIFY_TOKEN cfg));
              ("GRAPH_API_TOKEN",
               match GRAPH_API_TOKEN cfg with
               | Some ((String _ _) as token) => JStr (py_prefix 5 token +:+ "...")
               | _ => JNull
               end);
              ("PORT", json_option port)]).

End Handlers.

(** ** Observations on a run *)

Definition is_http (ev : event) : bool :=
  match ev with
  | EGet _ _ _ | EPost _ _ _ _ => true
  | _ => false
  end.

Definition is_write (ev : event) : bool :=
  match ev with
  | EWrite _ _ _ => true
  | _ => false
  end.

(** The steps that reach outside the process: all but logging and the clock. *)
Definition is_step (ev : event) : bool :=
  match ev with
  | ELog _ _ | ENow _ => false
  | _ => true
  end.

(** The last statement of the [try] block logs this line: a run contains it
    exactly when the image went through every step without an exception. *)
Definition is_success_log (ev : event) : bool :=
  match ev with
  | ELog INFO (Lit s :: _) => String.eqb s "Image processed successfully: "
  | _ => false
  end.

Definition processed_without_error (tr : list event) : bool :=
  existsb is_success_log tr.

(** The first line every run of [webhook] logs. *)
Definition incoming (body : json) : event :=
  ELog INFO [Lit "Incoming webhook message: "; Val body].

(** What [get_image_metadata] makes of the answer of the EXIF reader, and
    the line it logs when the reader raised. *)
Definition metadata_result (TAGS : Z -> option string)
    (x : result (option (list (Z * string)))) : metadata :=
  match x with
  | OK (Some ((_ :: _) as items)) => exif_metadata TAGS items
  | OK _ => [(TagName "error", "No EXIF data found")]
  | Err e => [(TagName "error", exn_msg e)]
  end.

Definition metadata_log (x : result (option (list (Z * string)))) : list event :=
  match x with
  | OK _ => []
  | Err e => [ELog ERROR [Lit "Error extracting metadata: "; Lit (exn_msg e)]]
  end.

(** The accesses to files, in order. *)
Inductive access : Type :=
| Written (path : string)
| Read (path : string).

Definition file_access (ev : event) : option access :=
  match ev with
  | EWrite path _ _ => Some (Written path)
  | EExif path _ => Some (Read path)
  | _ => None
  end.

Definition accesses (tr : list event) : list access := omap file_access tr.

(** The files a run saved: the paths of the writes that succeeded. *)
Definition saved (tr : list event) : list string :=
  omap (fun ev => match ev with
                  | EWrite path _ (OK _) => Some path
                  | _ => None
                  end) tr.

(** The readings of the clock a run took. *)
Definition clock (tr : list event) : list string :=
  omap (fun ev => match ev with
                  | ENow reading => Some reading
                  | _ => None
                  end) tr.

Definition returned {A : Type} (r : result A) : bool :=
  match r with
  | OK _ => true
  | Err _ => false
  end.

(** Lines 80 to 90 raise nothing on this body: the message and the phone
    number id are found, the message is a dictionary and, when its type is
    "image", its image id, MIME type and file extension are found too. *)
Definition fields_resolve (body : json) : bool :=
  match message_of body, phone_number_id_of body with
  | OK message, OK _ =>
      match py_get message "type" JNull with
      | OK type =>
          if py_eq_str type "text" then true
          else if py_eq_str type "image" then returned (image_fields message)
          else true
      | Err _ => false
      end
  | _, _ => false
  end.

(** The [images] folder and the rest of the disk: the content of each file.
    A write that succeeded leaves the data under the path.  A write that
    raised may have left the file empty or partial; the store keeps its old
    entry then, and the properties below only rely on the entry being
    there. *)
Definition fs_step (fs : gmap string (list byte)) (ev : event) : gmap string (list byte) :=
  match ev with
  | EWrite path data (OK _) => <[path := data]> fs
  | _ => fs
  end.

Definition fs_after (fs : gmap string (list byte)) (tr : list event) : gmap string (list byte) :=
  foldl fs_step fs tr.

Fixpoint count_char (c : ascii) (s : string) : nat :=
  match s with
  | EmptyString => 0
  | String c' s' => (if Ascii.eqb c' c then 1 else 0) + count_char c s'
  end.

(** The text of a float between 1e-4 and 1e16, as an f-string prints the
    reading of the clock: digits with exactly one point among them. *)
Definition one_point (s : string) : bool := Nat.eqb (count_char "."%char s) 1.

(** ** The shape of the platform's payloads *)

(** A MIME type of the form type/subtype. *)
Definition has_slash (s : string) : bool :=
  negb (Nat.eqb (count_char "/"%char s) 0).

(** A message as the platform sends it: one of type "image" carries an
    [image] dictionary with an [id] and a [mime_type]. *)
Definition message_shaped (message : list (string * json)) : bool :=
  match dict_get message "type" with
  | Some type =>
      if py_eq_str type "image" then
        match dict_get message "image" with
        | Some (JObj image) =>
            match dict_get image "id", dict_get image "mime_type" with
            | Some _, Some (JStr mime_type) => has_slash mime_type
            | _, _ => false
            end
        | _ => false
        end
      else true
  | None => true
  end.

(** The envelope of a notification: [entry[0].changes[0].value] is a
    dictionary with a [metadata] dictionary and, unless it reports statuses
    only, a list of [messages] that starts with a message. *)
Definition platform_shaped (body : json) : bool :=
  match body with
  | JObj top =>
      match dict_get top "entry" with
      | Some (JList (JObj entry :: _)) =>
          match dict_get entry "changes" with
          | Some (JList (JObj change :: _)) =>
              match dict_get change "value" with
              | Some (JObj value) =>
                  match dict_get value "metadata" with
                  | Some (JObj _) =>
                      match dict_get value "messages" with
                      | Some (JList (JObj message :: _)) => message_shaped message
                      | Some _ => false
                      | None => true
                      end
                  | _ => false
                  end
              | _ => false
              end
          | _ => false
          end
      | _ => false
      end
  | _ => false
  end.

(** ** Sample inputs *)

Definition sample_config : config :=
  Config (Some "s3cret") (Some "EAAGtoken123").

(** A few entries of PIL's table. *)
Definition sample_TAGS (tag_id : Z) : option string :=
  match tag_id with
  | 271 => Some "Make"
  | 272 => Some "Model"
  | 306 => Some "DateTime"
  | _ => None
  end%Z.

(** The envelope the platform posts, around one [value]. *)
Definition envelope (value : json) : json :=
  JObj [("object", JStr "whatsapp_business_account");
        ("entry", JList [JObj [("id", JStr "102290129340398");
                               ("changes", JList [JObj [("value", value);
                                                        ("field", JStr "messages")]])]])].

Definition sample_metadata : json :=
  JObj [("display_phone_number", JStr "15550783881");
        ("phone_number_id", JStr "106540352242922")].

Definition image_message (image_id mime_type : string) : json :=
  JObj [("from", JStr "16505551234");
        ("id", JStr ("wamid." +:+ image_id));
        ("timestamp", JStr "1700000000");
        ("type", JStr "image");
        ("image", JObj [("caption", JStr "Receipt");
                        ("mime_type", JStr mime_type);
                        ("sha256", JStr "c2hhMjU2");
                        ("id", JStr image_id)])].

Definition image_payload (image_id mime_type : string) : json :=
  envelope (JObj [("messaging_product", JStr "whatsapp");
                  ("metadata", sample_metadata);
                  ("messages", JList [image_message image_id mime_type])]).

Definition text_payload : json :=
  envelope (JObj [("messaging_product", JStr "whatsapp");
                  ("metadata", sample_metadata);
                  ("messages", JList [JObj [("from", JStr "16505551234");
                                            ("id", JStr "wamid.T1");
                                            ("type", JStr "text");
                                            ("text", JObj [("body", JStr "hello")])]])]).

(** A world where every request succeeds and the clock reads [reading]. *)
Definition calm_world (reading : string) : env :=
  fun X _ e =>
    match e in eff X return X with
    | Log _ _ => tt
    | Now => reading
    | HttpGet [Lit _; Val _] _ =>
        OK (Response 200 [] (OK (JObj [("url", JStr "https://lookaside.fbsbx.com/m1")])))
    | HttpGet _ _ =>
        OK (Response 200 [xff; xd8; xff; xe1]
              (Err (Exn (LibraryError "JSONDecodeError") "Expecting value")))
    | HttpPost _ _ _ => OK (Response 200 [] (OK (JObj [])))
    | WriteFile _ _ => OK tt
    | GetExif _ => OK (Some [(271, "Canon"); (272, "EOS 80D"); (37510, "b''")]%Z)
    | GetEnv _ => Some "8000"
    end.

(** A world where the Graph API cannot be reached. *)
Definition offline_world (reading : string) : env :=
  fun X _ e =>
    match e in eff X return X with
    | Log _ _ => tt
    | Now => reading
    | HttpGet _ _ | HttpPost _ _ _ =>
        Err (Exn (LibraryError "httpx.ConnectError") "All connection attempts failed")
    | WriteFile _ _ => OK tt
    | GetExif _ => OK None
    | GetEnv _ => None
    end.

(** A world where all succeeds but PIL cannot read the saved file. *)
Definition unreadable_world (reading : string) : env :=
  fun X h e =>
    match e in eff X return X with
    | GetExif _ => Err (Exn (LibraryError "PIL.UnidentifiedImageError")
                          "cannot identify image file")
    | other => calm_world reading _ h other
    end.

(** A world where all succeeds and whose clock has moved on after the first
    request. *)
Definition later_world : env :=
  fun X h e =>
    match e in eff X return X with
    | Now => match h with
             | [_] => "1700000000.5"
             | _ => "1700000001.25"
             end
    | other => calm_world "" _ h other
    end.

Definition image_request (image_id mime_type : string) : request :=
  Request (OK (image_payload image_id mime_type)).

(** The run of one image request in the calm world. *)
Definition calm_run : list event :=
  trace (calm_world "1700000000.5") []
    (webhook sample_TAGS sample_config (image_request "M1" "image/jpeg")).

(** ** Further observations *)

(** [sep.join(parts)] *)
Fixpoint join (sep : ascii) (parts : list string) : string :=
  match parts with
  | [] => EmptyString
  | [p] => p
  | p :: ps => p +:+ String sep (join sep ps)
  end.

Definition no_slash (s : string) : bool := Nat.eqb (count_char "/"%char s) 0.

(** [m.get(k)] on the metadata dictionary *)
Fixpoint meta_get (m : metadata) (k : tag) : option string :=
  match m with
  | [] => None
  | (k', v) :: m' => if tag_eqb k' k then Some v else meta_get m' k
  end.

(** The value of the last EXIF entry whose tag is [k], if there is one. *)
Definition last_value (TAGS : Z -> option string) (items : list (Z * string)) (k : tag)
    : option string :=
  match List.find (fun item => tag_eqb (tag_of TAGS item.1) k) (rev items) with
  | Some item => Some item.2
  | None => None
  end.

(** The [Authorization] header of each HTTP call of a run. *)
Definition authorization_of (ev : event) : option string :=
  match ev with
  | EGet _ authorization _ | EPost _ authorization _ _ => Some authorization
  | _ => None
  end.

Definition authorizations (tr : list event) : list string := omap authorization_of tr.

(** The documents a run posted, each with whether the call returned. *)
Definition posts (tr : list event) : list (outbound * bool) :=
  omap (fun ev => match ev with
                  | EPost _ _ payload answer => Some (payload, returned answer)
                  | _ => None
                  end) tr.

(** The events that are neither log lines nor readings of the clock. *)
Definition steps (tr : list event) : list event := List.filter is_step tr.

Section Lifecycle.

Variable cfg : config.

(** [@app.on_event("startup")] *)
Definition startup_event : io unit :=
  perform (Log INFO [Lit "Application is starting up"]);;
  perform (Log INFO [Lit "WEBHOOK_VERIFY_TOKEN: ";
                     Lit (str_option (WEBHOOK_VERIFY_TOKEN cfg))]).

(** [@app.on_event("shutdown")] *)
Definition shutdown_event : io unit :=
  perform (Log INFO [Lit "Application is shutting down"]).

End Lifecycle.

(** An image notification whose message names no sender. *)
Definition anonymous_image_payload : json :=
  envelope (JObj [("messaging_product", JStr "whatsapp");
                  ("metadata", sample_metadata);
                  ("messages",
                   JList [JObj [("id", JStr "wamid.M1");
                                ("type", JStr "image");
                                ("image", JObj [("mime_type", JStr "image/png");
                                                ("id", JStr "M1")])]])]).

(** * Properties *)

Example split_on_mime : split_on "/"%char "image/jpeg" = ["image"; "jpeg"].
Proof. reflexivity. Qed.

Example split_on_none : split_on "/"%char "jpeg" = ["jpeg"].
Proof. reflexivity. Qed.

Example split_on_empty : split_on "/"%char "" = [""].
Proof. reflexivity. Qed.

Example split_on_edges : split_on "/"%char "/a//" = [""; "a"; ""; ""].
Proof. reflexivity. Qed.

(** ** Runs of composed handlers *)

Section Runs.

Context {A B : Type}.
Variable w : env.

Lemma trace_bind (m : io A) (f : A -> io B) h :
  trace w h (m ≫= f) =
    trace w h m ++
    match outcome w h m with
    | OK a => trace w (h ++ trace w h m) (f a)
    | Err _ => []
    end.
Proof.
  revert h. induction m as [a | e | X e k IH]; intros h; simpl.
  - by rewrite app_nil_r.
  - done.
  - f_equal. change (io_bind f (k ?x)) with (k x ≫= f).
    rewrite IH. by rewrite <- (app_assoc h [_]).
Qed.

Lemma outcome_bind (m : io A) (f : A -> io B) h :
  outcome w h (m ≫= f) =
    match outcome w h m with
    | OK a => outcome w (h ++ trace w h m) (f a)
    | Err e => Err e
    end.
Proof.
  revert h. induction m as [a | e | X e k IH]; intros h; simpl.
  - by rewrite app_nil_r.
  - done.
  - change (io_bind f (k ?x)) with (k x ≫= f).
    rewrite IH. by rewrite <- (app_assoc h [_]).
Qed.

End Runs.

Section Guards.

Context {A : Type}.
Variable w : env.

Lemma trace_try_except (m : io A) (handler : exn -> io A) h :
  trace w h (try_except m handler) =
    trace w h m ++
    match outcome w h m with
    | OK _ => []
    | Err e => trace w (h ++ trace w h m) (handler e)
    end.
Proof.
  revert h. induction m as [a | e | X e k IH]; intros h; simpl.
  - done.
  - by rewrite app_nil_r.
  - f_equal. rewrite IH. by rewrite <- (app_assoc h [_]).
Qed.

Lemma outcome_try_except (m : io A) (handler : exn -> io A) h :
  outcome w h (try_except m handler) =
    match outcome w h m with
    | OK a => OK a
    | Err e => outcome w (h ++ trace w h m) (handler e)
    end.
Proof.
  revert h. induction m as [a | e | X e k IH]; intros h; simpl.
  - done.
  - by rewrite app_nil_r.
  - rewrite IH. by rewrite <- (app_assoc h [_]).
Qed.

(** A [try] statement whose handler returns normally returns normally. *)
Lemma try_except_returns (m : io A) (handler : exn -> io A) h :
  (forall e h', exists a, outcome w h' (handler e) = OK a) ->
  exists a, outcome w h (try_except m handler) = OK a.
Proof.
  intros Hh. rewrite outcome_try_except.
  destruct (outcome w h m) as [a | e]; [by exists a | apply Hh].
Qed.

End Guards.

(** ** [GET /webhook] *)

(** C1. A verification request gets the challenge echoed back as plain text
    exactly when [hub.mode] is "subscribe" and [hub.verify_token] is the
    configured [WEBHOOK_VERIFY_TOKEN]; every other request ends in an
    [HTTPException] with status 403. *)
Theorem verify_webhook_echo_iff (cfg : config) (w : env) (h : list event)
    (hub_mode hub_verify_token hub_challenge : string) :
  let out := outcome w h (verify_webhook cfg hub_mode hub_verify_token hub_challenge) in
  (out = OK (PlainTextResponse hub_challenge) <->
     hub_mode = "subscribe" /\ WEBHOOK_VERIFY_TOKEN cfg = Some hub_verify_token)
  /\ (out = OK (PlainTextResponse hub_challenge) \/
      out = Err (Exn (HTTPException 403) "Forbidden")).
Proof.
  unfold verify_webhook. simpl.
  destruct (String.eqb_spec hub_mode "subscribe") as [Hm | Hm]; simpl.
  - destruct (WEBHOOK_VERIFY_TOKEN cfg) as [secret |]; simpl.
    + destruct (String.eqb_spec hub_verify_token secret) as [Ht | Ht]; simpl.
      * subst. split; [split; auto | by left].
      * split; [split; [discriminate | intros [_ E]; congruence] | by right].
    + split; [split; [discriminate | intros [_ E]; discriminate] | by right].
  - split; [split; [discriminate | intros [E _]; contradiction] | by right].
Qed.

Example verify_webhook_unset_secret :
  outcome (calm_world "0.0") [] (verify_webhook (Config None None) "subscribe" "" "42")
  = Err (Exn (HTTPException 403) "Forbidden").
Proof. reflexivity. Qed.

(** ** [GET /debug] *)

Lemma py_prefix_length n s :
  String.length (py_prefix n s) = Nat.min n (String.length s).
Proof.
  revert s. induction n as [| n IH]; intros [| c s]; simpl; try lia.
  by rewrite IH.
Qed.

Lemma py_prefix_is_prefix n s : exists rest, s = py_prefix n s +:+ rest.
Proof.
  revert s. induction n as [| n IH]; intros s.
  - exists s. by destruct s.
  - destruct s as [| c s]; [by exists "" |].
    destruct (IH s) as [rest Hr]. exists rest.
    change (String c s = String c (py_prefix n s +:+ rest)). by f_equal.
Qed.

(** C8. The debug endpoint answers with three entries: the whole
    [WEBHOOK_VERIFY_TOKEN], the [PORT] variable of the environment, and for
    [GRAPH_API_TOKEN] null when the token is unset or empty and otherwise
    its first five characters (all of it when it is shorter) followed by
    "...". *)
Theorem debug_info_discloses (cfg : config) (w : env) (h : list event) :
  exists port shown,
    outcome w h (debug_info cfg) =
      OK (JObj [("WEBHOOK_VERIFY_TOKEN", json_option (WEBHOOK_VERIFY_TOKEN cfg));
                ("GRAPH_API_TOKEN", shown);
                ("PORT", json_option port)])
    /\ port = w _ (h ++ [ELog INFO [Lit "Debug endpoint accessed"]]) (GetEnv "PORT")
    /\ match GRAPH_API_TOKEN cfg with
       | None => shown = JNull
       | Some token =>
           (token = "" /\ shown = JNull) \/
           exists p rest, shown = JStr (p +:+ "...") /\ token = p +:+ rest
                          /\ String.length p = Nat.min 5 (String.length token)
       end.
Proof.
  unfold debug_info. simpl. eexists; eexists. split; [reflexivity |].
  split; [reflexivity |].
  destruct (GRAPH_API_TOKEN cfg) as [[| c token] |]; auto.
  right. destruct (py_prefix_is_prefix 5 (String c token)) as [rest Hr].
  exists (py_prefix 5 (String c token)), rest.
  split; [reflexivity |]. split; [exact Hr | apply py_prefix_length].
Qed.

(** ** [get_image_metadata] *)

Lemma tag_eqb_eq a b : tag_eqb a b = true -> a = b.
Proof.
  destruct a as [x | x], b as [y | y]; simpl; try discriminate.
  - by intros ->%String.eqb_eq.
  - by intros ->%Z.eqb_eq.
Qed.




Section Metadata.

Variable TAGS : Z -> option string.





End Metadata.

Example get_image_metadata_same_tag :
  outcome (fun X _ e =>
             match e in eff X return X with
             | GetExif _ => OK (Some [(7, "a"); (271, "Canon"); (7, "b")]%Z)
             | other => calm_world "0.0" _ [] other
             end) [] (get_image_metadata sample_TAGS "images/x.jpeg")
  = OK [(TagId 7, "b"); (TagName "Make", "Canon")].
Proof. reflexivity. Qed.

(** ** [POST /webhook] *)

Lemma py_eq_str_eq v s : py_eq_str v s = true -> v = JStr s.
Proof.
  destruct v; simpl; try discriminate. by intros ->%String.eqb_eq.
Qed.

Ltac io_cbn :=
  cbn [request_json trace outcome observe try_except mbind io_mbind io_bind
       mret io_ret app].

Ltac unfold_process :=
  unfold process_image, download_and_save_image, get_image_metadata, call, perform, lift;
  io_cbn.

(** One more answer of the world, or one more pure step, taken by cases. *)
Ltac answer :=
  match goal with
  | |- context [match ?s with _ => _ end] => destruct s eqn:?
  end;
  io_cbn.

Section Webhook.

Variable TAGS : Z -> option string.
Variable cfg : config.
Variable w : env.

Lemma webhook_image_run h body message bpid type image_id caption ext :
  message_of body = OK message ->
  phone_number_id_of body = OK bpid ->
  py_get message "type" JNull = OK type ->
  py_eq_str type "image" = true ->
  image_fields message = OK (image_id, caption, ext) ->
  let timestamp := w _ (h ++ [incoming body]) Now in
  let h' := h ++ [incoming body; ENow timestamp] in
  let p := process_image TAGS cfg message bpid image_id caption (filename_of timestamp ext) in
  trace w h (webhook TAGS cfg (Request (OK body))) =
    incoming body :: ENow timestamp :: trace w h' p ++
      match outcome w h' p with
      | OK _ => []
      | Err e => [ELog ERROR (error_processing e)]
      end
  /\ outcome w h (webhook TAGS cfg (Request (OK body))) = OK status_ok.
Proof.
  intros Hm Hp Ht Hi Hf timestamp h' p.
  apply py_eq_str_eq in Hi as ->.
  unfold webhook. cbn [request_json lift mbind io_mbind io_bind perform trace outcome observe].
  rewrite Hm. cbn [lift mbind io_mbind io_bind]. rewrite Hp. cbn [lift mbind io_mbind io_bind].
  rewrite Ht. cbn [lift mbind io_mbind io_bind].
  change (py_eq_str (JStr "image") "text") with false.
  change (py_eq_str (JStr "image") "image") with true. cbv iota.
  unfold image_branch. rewrite Hf.
  cbn [lift mbind io_mbind io_bind perform trace outcome observe].
  rewrite <- !(app_assoc h [_] [_]). cbn [app].
  fold (incoming body). fold timestamp. fold h'. fold p.
  rewrite trace_bind, outcome_bind, trace_try_except, outcome_try_except.
  destruct (outcome w h' p) as [[] | e]; simpl; by rewrite ?app_nil_r.
Qed.

Lemma process_image_success h message bpid image_id caption filename :
  let p := process_image TAGS cfg message bpid image_id caption filename in
  outcome w h p = OK tt ->
  exists r1 media media_url r2 x to message_id r3 r4,
    json_body r1 = OK media /\ py_item media "url" = OK media_url
    /\ py_item message "from" = OK to /\ py_item message "id" = OK message_id
    /\ trace w h p =
         [EGet [Lit graph; Val image_id] (bearer cfg) (OK r1);
          EGet [Val media_url] (bearer cfg) (OK r2);
          EWrite (images_path filename) (content r2) (OK tt);
          ELog INFO [Lit "Image saved: "; Lit filename];
          EExif (images_path filename) x]
         ++ metadata_log x ++
         [ELog INFO [Lit "Image metadata: "; Dumps (metadata_result TAGS x)];
          EPost (messages_url bpid) (bearer cfg)
            (TextMessage to (response_message caption (metadata_result TAGS x)) message_id)
            (OK r3);
          EPost (messages_url bpid) (bearer cfg) (ReadReceipt message_id) (OK r4);
          ELog INFO [Lit "Image processed successfully: "; Lit filename]].
Proof.
  intros p. subst p. unfold_process.
  repeat answer; try discriminate; intros _.
  all: repeat match goal with u : unit |- _ => destruct u end.
  all: do 4 eexists; match goal with |- context [EExif _ ?ans] => exists ans end.
  all: do 4 eexists; split_and!; [.. | reflexivity]; eassumption || reflexivity.
Qed.

Lemma process_image_log h message bpid image_id caption filename :
  let p := process_image TAGS cfg message bpid image_id caption filename in
  processed_without_error (trace w h p) = returned (outcome w h p).
Proof.
  intros p. subst p. unfold_process. repeat answer; reflexivity.
Qed.

Lemma process_image_files h message bpid image_id caption filename :
  let tr := trace w h (process_image TAGS cfg message bpid image_id caption filename) in
  let path := images_path filename in
  clock tr = []
  /\ ((accesses tr = [] /\ saved tr = [])
      \/ (accesses tr = [Written path] /\ saved tr = [])
      \/ (accesses tr = [Written path; Read path] /\ saved tr = [path])).
Proof.
  intros tr path. subst tr path. unfold_process.
  repeat answer; (split; [reflexivity |]); auto.
Qed.


Lemma process_image_exif_error h message bpid image_id caption filename :
  let tr := trace w h (process_image TAGS cfg message bpid image_id caption filename) in
  forall path e, In (EExif path (Err e)) tr ->
    In (ELog ERROR [Lit "Error extracting metadata: "; Lit (exn_msg e)]) tr
    /\ forall url auth to body message_id r,
         In (EPost url auth (TextMessage to body message_id) r) tr ->
         body = response_message caption [(TagName "error", exn_msg e)].
Proof.
  intros tr. subst tr. unfold_process.
  repeat answer; intros path exif_error Hin; cbn in Hin;
    destruct_or?; simplify_eq; try done.
  all: split; [cbn; tauto |].
  all: intros url auth to body message_id r Hp; cbn in Hp;
    destruct_or?; by simplify_eq.
Qed.

Lemma webhook_cases h body :
  let tr := trace w h (webhook TAGS cfg (Request (OK body))) in
  tr = [incoming body]
  \/ tr = [incoming body; ELog INFO [Lit "Received text message"]]
  \/ exists message bpid type image_id caption ext,
       message_of body = OK message
       /\ phone_number_id_of body = OK bpid
       /\ py_get message "type" JNull = OK type
       /\ py_eq_str type "image" = true
       /\ image_fields message = OK (image_id, caption, ext).
Proof.
  unfold webhook, incoming, perform, lift. io_cbn.
  destruct (message_of body) as [message |] eqn:Hm; io_cbn; [| by left].
  destruct (phone_number_id_of body) as [bpid |] eqn:Hp; io_cbn; [| by left].
  destruct (py_get message "type" JNull) as [type |] eqn:Ht; io_cbn; [| by left].
  destruct (py_eq_str type "text"); io_cbn; [by right; left |].
  destruct (py_eq_str type "image") eqn:Hi; io_cbn; [| by left].
  destruct (image_fields message) as [[[image_id caption] ext] |] eqn:Hf.
  - right; right. by exists message, bpid, type, image_id, caption, ext.
  - left. unfold image_branch, lift. by rewrite Hf.
Qed.

Lemma webhook_success_run h body :
  let tr := trace w h (webhook TAGS cfg (Request (OK body))) in
  processed_without_error tr = true ->
  exists message bpid image_id caption ext timestamp r1 media media_url r2 x to message_id r3 r4,
    message_of body = OK message
    /\ phone_number_id_of body = OK bpid
    /\ py_get message "type" JNull = OK (JStr "image")
    /\ image_fields message = OK (image_id, caption, ext)
    /\ json_body r1 = OK media /\ py_item media "url" = OK media_url
    /\ py_item message "from" = OK to /\ py_item message "id" = OK message_id
    /\ let filename := filename_of timestamp ext in
       tr =
         [incoming body;
          ENow timestamp;
          EGet [Lit graph; Val image_id] (bearer cfg) (OK r1);
          EGet [Val media_url] (bearer cfg) (OK r2);
          EWrite (images_path filename) (content r2) (OK tt);
          ELog INFO [Lit "Image saved: "; Lit filename];
          EExif (images_path filename) x]
         ++ metadata_log x ++
         [ELog INFO [Lit "Image metadata: "; Dumps (metadata_result TAGS x)];
          EPost (messages_url bpid) (bearer cfg)
            (TextMessage to (response_message caption (metadata_result TAGS x)) message_id)
            (OK r3);
          EPost (messages_url bpid) (bearer cfg) (ReadReceipt message_id) (OK r4);
          ELog INFO [Lit "Image processed successfully: "; Lit filename]].
Proof.
  intros tr. subst tr.
  destruct (webhook_cases h body)
    as [-> | [-> | (message & bpid & type & image_id & caption & ext
                    & Hm & Hp & Ht & Hi & Hf)]]; [done | done |].
  destruct (webhook_image_run h body _ _ _ _ _ _ Hm Hp Ht Hi Hf) as [-> _].
  apply py_eq_str_eq in Hi as ->.
  set (timestamp := w _ (h ++ [incoming body]) Now).
  set (h' := h ++ [incoming body; ENow timestamp]).
  set (p := process_image _ _ _ _ _ _ _).
  pose proof (process_image_log h' message bpid image_id caption
                (filename_of timestamp ext)) as Hlog.
  pose proof (process_image_success h' message bpid image_id caption
                (filename_of timestamp ext)) as Hrun.
  cbv zeta in Hlog, Hrun. fold p in Hlog, Hrun.
  unfold processed_without_error in *.
  cbn [existsb is_success_log orb]. rewrite existsb_app, Hlog.
  destruct (outcome w h' p) as [[] | e]; [intros _ | done].
  destruct (Hrun eq_refl)
    as (r1 & media & media_url & r2 & x & to & message_id & r3 & r4
        & H1 & H2 & H3 & H4 & ->).
  exists message, bpid, image_id, caption, ext, timestamp,
    r1, media, media_url, r2, x, to, message_id, r3, r4.
  split_and!; try done. cbn. by rewrite app_nil_r.
Qed.


(** C2, amended. Once the handler has taken an image message apart,
    whatever escapes the guarded block (a failed download, file write or
    send, a missing field of the message) is caught by the guard of the
    handler: the handler still returns [{"status": "ok"}], and its run is
    the run of the block followed, when the block raised [e], by one ERROR
    line carrying [e] and nothing else, so that nothing goes out to the
    sender after the failure.  A failure of the metadata extraction does not
    reach that guard: [get_image_metadata] catches it itself and logs it,
    and the summary reply, when it is sent, carries its text to the sender
    as the "error" entry of the metadata. *)
Theorem image_failures_caught h body message bpid image_id caption ext :
  message_of body = OK message ->
  phone_number_id_of body = OK bpid ->
  py_get message "type" JNull = OK (JStr "image") ->
  image_fields message = OK (image_id, caption, ext) ->
  let timestamp := w _ (h ++ [incoming body]) Now in
  let h' := h ++ [incoming body; ENow timestamp] in
  let p := process_image TAGS cfg message bpid image_id caption (filename_of timestamp ext) in
  let tr := trace w h (webhook TAGS cfg (Request (OK body))) in
  outcome w h (webhook TAGS cfg (Request (OK body))) = OK status_ok
  /\ tr = incoming body :: ENow timestamp :: trace w h' p ++
            match outcome w h' p with
            | OK _ => []
            | Err e => [ELog ERROR (error_processing e)]
            end
  /\ forall path e, In (EExif path (Err e)) tr ->
       In (ELog ERROR [Lit "Error extracting metadata: "; Lit (exn_msg e)]) tr
       /\ forall url auth to body' message_id r,
            In (EPost url auth (TextMessage to body' message_id) r) tr ->
            body' = response_message caption [(TagName "error", exn_msg e)].
Proof.
  intros Hm Hp Ht Hf timestamp h' p tr.
  destruct (webhook_image_run h body _ _ _ _ _ _ Hm Hp Ht eq_refl Hf) as [Htr Hout].
  fold timestamp h' p tr in Htr. split_and!; [done | done |].
  set (tail := match outcome w h' p with OK _ => [] | Err e => _ end) in Htr.
  assert (forall ev, is_step ev = true -> In ev tr -> In ev (trace w h' p)) as Hstep.
  { intros ev Hev. rewrite Htr. intros [<- | [<- | Hin]]; [done | done |].
    apply in_app_or in Hin as [Hin | Hin]; [done |].
    subst tail. destruct (outcome w h' p); [done |].
    by destruct Hin as [<- | []]. }
  intros path e Hin. apply Hstep in Hin; [| done].
  destruct (process_image_exif_error h' message bpid image_id caption
              (filename_of timestamp ext) path e Hin) as [Hlog Hpost].
  split.
  - rewrite Htr. right; right. apply in_or_app. by left.
  - intros url auth to body' message_id r Hin'. apply Hstep in Hin'; [| done].
    by eapply Hpost.
Qed.

(** C4. When an image goes through without an exception, the steps the
    handler takes outside the process are, in this order: the lookup of the
    media URL for the image id found in the message, the download from that
    URL, the write of the downloaded bytes to the file named after the
    clock, the EXIF read of that file, the summary reply and the read
    receipt.  The body was parsed, and the message found to be of type
    "image", before the first of them. *)
Theorem image_steps_in_order h body :
  let tr := trace w h (webhook TAGS cfg (Request (OK body))) in
  processed_without_error tr = true ->
  exists message bpid image_id caption ext timestamp r1 media media_url r2 x to message_id r3 r4,
    message_of body = OK message
    /\ phone_number_id_of body = OK bpid
    /\ py_get message "type" JNull = OK (JStr "image")
    /\ image_fields message = OK (image_id, caption, ext)
    /\ clock tr = [timestamp]
    /\ json_body r1 = OK media /\ py_item media "url" = OK media_url
    /\ py_item message "from" = OK to /\ py_item message "id" = OK message_id
    /\ let path := images_path (filename_of timestamp ext) in
       List.filter is_step tr =
         [EGet [Lit graph; Val image_id] (bearer cfg) (OK r1);
          EGet [Val media_url] (bearer cfg) (OK r2);
          EWrite path (content r2) (OK tt);
          EExif path x;
          EPost (messages_url bpid) (bearer cfg)
            (TextMessage to (response_message caption (metadata_result TAGS x)) message_id)
            (OK r3);
          EPost (messages_url bpid) (bearer cfg) (ReadReceipt message_id) (OK r4)].
Proof.
  intros tr Hok.
  destruct (webhook_success_run h body Hok)
    as (message & bpid & image_id & caption & ext & timestamp & r1 & media
        & media_url & r2 & x & to & message_id & r3 & r4
        & Hm & Hp & Ht & Hf & H1 & H2 & H3 & H4 & Htr).
  exists message, bpid, image_id, caption, ext, timestamp,
    r1, media, media_url, r2, x, to, message_id, r3, r4.
  subst tr. rewrite Htr. split_and!; try done; by destruct x.
Qed.

(** C5, amended. When an image goes through without an exception, the
    handler makes exactly four outbound HTTP calls: two GET requests (media
    URL lookup, download) followed by two POST requests (summary reply,
    read receipt). *)
Theorem image_four_http_calls h body :
  let tr := trace w h (webhook TAGS cfg (Request (OK body))) in
  processed_without_error tr = true ->
  length (List.filter is_http tr) = 4
  /\ exists u1 r1 u2 r2 u3 p3 r3 u4 p4 r4,
       List.filter is_http tr =
         [EGet u1 (bearer cfg) r1; EGet u2 (bearer cfg) r2;
          EPost u3 (bearer cfg) p3 r3; EPost u4 (bearer cfg) p4 r4].
Proof.
  intros tr Hok.
  destruct (webhook_success_run h body Hok)
    as (message & bpid & image_id & caption & ext & timestamp & r1 & media
        & media_url & r2 & x & to & message_id & r3 & r4
        & _ & _ & _ & _ & _ & _ & _ & _ & Htr).
  subst tr. rewrite Htr. destruct x; (split; [reflexivity |]);
    do 10 eexists; reflexivity.
Qed.

End Webhook.

(** ** Files *)

Lemma fs_after_keeps tr : forall (fs : gmap string (list byte)) path,
  is_Some (fs !! path) -> is_Some (fs_after fs tr !! path).
Proof.
  induction tr as [| ev tr IH]; intros fs path Hp; [done |].
  apply IH. destruct ev as [| | | | p data [[] |] | |]; simpl; try done.
  destruct (decide (p = path)) as [-> | Hne].
  - rewrite lookup_insert_eq. eauto.
  - by rewrite lookup_insert_ne.
Qed.

Lemma fs_after_frame tr : forall (fs : gmap string (list byte)) path,
  ~ In (Written path) (accesses tr) -> fs_after fs tr !! path = fs !! path.
Proof.
  induction tr as [| ev tr IH]; intros fs path Hp; [done |].
  unfold fs_after. simpl. fold (fs_after (fs_step fs ev) tr).
  destruct ev as [| | | | p data [[] |] | |]; simpl in *; try (apply IH; tauto).
  rewrite IH by tauto. apply lookup_insert_ne. intros ->. tauto.
Qed.

Lemma fs_after_saved tr : forall (fs : gmap string (list byte)) path,
  In path (saved tr) -> is_Some (fs_after fs tr !! path).
Proof.
  induction tr as [| ev tr IH]; intros fs path Hp; [done |].
  unfold fs_after. simpl. fold (fs_after (fs_step fs ev) tr).
  destruct ev as [| | | | p data [[] |] | |]; simpl in *; try by apply IH.
  destruct Hp as [-> | Hp]; [| by apply IH].
  apply fs_after_keeps. simpl. rewrite lookup_insert_eq. eauto.
Qed.

Lemma accesses_app tr1 tr2 : accesses (tr1 ++ tr2) = accesses tr1 ++ accesses tr2.
Proof. apply omap_app. Qed.

Lemma saved_app tr1 tr2 : saved (tr1 ++ tr2) = saved tr1 ++ saved tr2.
Proof. apply omap_app. Qed.

Lemma clock_app tr1 tr2 : clock (tr1 ++ tr2) = clock tr1 ++ clock tr2.
Proof. apply omap_app. Qed.

Section Files.

Variable TAGS : Z -> option string.
Variable cfg : config.
Variable w : env.

(** The file accesses of any run of the handler. *)
Lemma webhook_files h req :
  let tr := trace w h (webhook TAGS cfg req) in
  (accesses tr = [] /\ saved tr = [])
  \/ exists timestamp ext,
       let path := images_path (filename_of timestamp ext) in
       clock tr = [timestamp]
       /\ ((accesses tr = [Written path] /\ saved tr = [])
           \/ (accesses tr = [Written path; Read path] /\ saved tr = [path])).
Proof.
  destruct req as [[body | e]]; [| by left].
  intros tr. subst tr.
  destruct (webhook_cases TAGS cfg w h body)
    as [-> | [-> | (message & bpid & type & image_id & caption & ext
                    & Hm & Hp & Ht & Hi & Hf)]]; [by left | by left |].
  destruct (webhook_image_run TAGS cfg w h body _ _ _ _ _ _ Hm Hp Ht Hi Hf) as [-> _].
  set (timestamp := w _ (h ++ [incoming body]) Now).
  set (h' := h ++ [incoming body; ENow timestamp]).
  destruct (process_image_files TAGS cfg w h' message bpid image_id caption
              (filename_of timestamp ext)) as (Hc & Hacc).
  set (p := process_image _ _ _ _ _ _ _) in *.
  set (tail := match outcome w h' p with OK _ => [] | Err e => _ end).
  assert (accesses tail = [] /\ saved tail = [] /\ clock tail = [])
    as (Ha & Hs & Hk) by (subst tail; by destruct (outcome w h' p)).
  change (incoming body :: ENow timestamp :: trace w h' p ++ tail)
    with ([incoming body; ENow timestamp] ++ trace w h' p ++ tail).
  rewrite !accesses_app, !saved_app, !clock_app, Ha, Hs, Hk, Hc, !app_nil_r.
  change (accesses [incoming body; ENow timestamp]) with (@nil access).
  change (saved [incoming body; ENow timestamp]) with (@nil string).
  change (clock [incoming body; ENow timestamp]) with [timestamp].
  cbn [app].
  destruct Hacc as [? | ?]; [by left | right].
  exists timestamp, ext. by split.
Qed.

(** C6, amended. A file that a request saved was written exactly once by
    it, under a name derived from the reading of the clock, and was then
    opened once more, by the same request, to read its EXIF tags: the
    accesses of the run are that write and that read, in this order.  No
    run deletes a file: whatever was on disk before is still there after,
    the saved file is there, and a file the run did not write to has its
    content unchanged. *)
Theorem saved_file_written_once_read_once h req :
  let tr := trace w h (webhook TAGS cfg req) in
  (forall path, In path (saved tr) ->
     exists timestamp ext,
       clock tr = [timestamp]
       /\ path = images_path (filename_of timestamp ext)
       /\ accesses tr = [Written path; Read path])
  /\ (forall (fs : gmap string (list byte)) path,
        is_Some (fs !! path) \/ In path (saved tr) ->
        is_Some (fs_after fs tr !! path))
  /\ (forall (fs : gmap string (list byte)) path,
        ~ In (Written path) (accesses tr) -> fs_after fs tr !! path = fs !! path).
Proof.
  intros tr. split_and!.
  - intros path Hin.
    destruct (webhook_files h req)
      as [[_ Hs] | (timestamp & ext & Hc & [[_ Hs] | [Ha Hs]])];
      fold tr in Hs; rewrite Hs in Hin; try done.
    destruct Hin as [<- | []]. by exists timestamp, ext.
  - intros fs path [Hp | Hp]; [by apply fs_after_keeps | by apply fs_after_saved].
  - intros fs path. apply fs_after_frame.
Qed.

End Files.

(** ** File names *)

Lemma append_point_inj s : forall t x y,
  count_char "."%char s = count_char "."%char t ->
  s +:+ "." +:+ x = t +:+ "." +:+ y -> s = t.
Proof.
  induction s as [| c s IH]; intros [| d t] x y Hc Heq; cbn in *.
  - done.
  - injection Heq as <- _. cbn in Hc. lia.
  - injection Heq as -> _. cbn in Hc. lia.
  - injection Heq as -> Heq. f_equal. apply (IH t x y); [| done].
    destruct (Ascii.eqb d "."); lia.
Qed.

Lemma images_path_inj ts1 ext1 ts2 ext2 :
  count_char "."%char ts1 = count_char "."%char ts2 ->
  images_path (filename_of ts1 ext1) = images_path (filename_of ts2 ext2) ->
  ts1 = ts2.
Proof.
  unfold images_path, filename_of. cbn. intros Hc [= Heq].
  by apply append_point_inj in Heq.
Qed.

Section Names.

Variable TAGS : Z -> option string.
Variable cfg : config.
Variable w : env.

Lemma webhook_written_path h req path :
  let tr := trace w h (webhook TAGS cfg req) in
  In (Written path) (accesses tr) ->
  exists timestamp ext,
    clock tr = [timestamp] /\ path = images_path (filename_of timestamp ext).
Proof.
  intros tr Hin.
  destruct (webhook_files TAGS cfg w h req)
    as [[Ha _] | (timestamp & ext & Hc & [[Ha _] | [Ha _]])];
    fold tr in Ha; rewrite Ha in Hin; [done | |];
    exists timestamp, ext; (split; [done |]);
    cbn in Hin; intuition congruence.
Qed.

(** C7, amended. Two requests that each write an image file write files of
    distinct names whenever their readings of the clock differ (each
    reading printed, as a timestamp is, with one decimal point).  Nothing
    else tells the names apart: requests that read the same time and carry
    images of the same type share one file. *)
Theorem distinct_readings_distinct_names h1 req1 h2 req2 path1 path2 reading1 reading2 :
  let tr1 := trace w h1 (webhook TAGS cfg req1) in
  let tr2 := trace w h2 (webhook TAGS cfg req2) in
  In (Written path1) (accesses tr1) ->
  In (Written path2) (accesses tr2) ->
  In reading1 (clock tr1) ->
  In reading2 (clock tr2) ->
  one_point reading1 = true ->
  one_point reading2 = true ->
  reading1 <> reading2 ->
  path1 <> path2.
Proof.
  intros tr1 tr2 Hw1 Hw2 Hr1 Hr2 Hp1 Hp2 Hne Heq.
  destruct (webhook_written_path h1 req1 path1 Hw1) as (ts1 & ext1 & Hc1 & ->).
  destruct (webhook_written_path h2 req2 path2 Hw2) as (ts2 & ext2 & Hc2 & ->).
  fold tr1 in Hc1. fold tr2 in Hc2. rewrite Hc1 in Hr1. rewrite Hc2 in Hr2.
  destruct Hr1 as [-> | []]. destruct Hr2 as [-> | []].
  apply Hne. apply (images_path_inj _ ext1 _ ext2); [| done].
  unfold one_point in *. apply Nat.eqb_eq in Hp1, Hp2. congruence.
Qed.

End Names.

(** ** The answer of [POST /webhook] *)

Lemma split_on_cons sep s : exists p ps, split_on sep s = p :: ps.
Proof.
  induction s as [| c s (p & ps & IH)]; simpl; [eauto |].
  destruct (Ascii.eqb c sep); [eauto |]. rewrite IH. eauto.
Qed.

Lemma split_on_second s :
  has_slash s = true -> exists p, py_second (split_on "/"%char s) = OK p.
Proof.
  unfold has_slash. induction s as [| c s IH]; simpl; [done |].
  destruct (Ascii.eqb c "/") eqn:E; simpl.
  - intros _. destruct (split_on_cons "/"%char s) as (p & ps & ->). eauto.
  - intros Hs. destruct (IH Hs) as [p Hp].
    destruct (split_on "/"%char s) as [| q [| r rs]]; simpl in *; try done. eauto.
Qed.

Lemma platform_shaped_resolves body :
  platform_shaped body = true -> fields_resolve body = true.
Proof.
  unfold platform_shaped. intros H.
  repeat case_match; try discriminate; subst.
  all: unfold fields_resolve, message_of, phone_number_id_of, value_of; cbn.
  all: repeat match goal with
              | E : dict_get _ _ = _ |- _ => rewrite E; clear E; cbn
              end.
  2: done.
  unfold message_shaped in H. unfold image_fields, py_item.
  destruct (dict_get _ "type") as [type |]; cbn; [| done].
  destruct (py_eq_str type "text"); [done |].
  destruct (py_eq_str type "image"); [| done].
  repeat case_match; try discriminate; subst; cbn.
  rewrite H2, H3. cbn. by destruct (split_on_second _ H) as [p ->].
Qed.

Section Answer.

Variable TAGS : Z -> option string.
Variable cfg : config.
Variable w : env.

Lemma webhook_ok_iff h body :
  outcome w h (webhook TAGS cfg (Request (OK body))) = OK status_ok
  <-> fields_resolve body = true.
Proof.
  unfold fields_resolve.
  destruct (message_of body) as [message |] eqn:Hm.
  2: { unfold webhook, perform, lift. io_cbn. rewrite Hm. by io_cbn. }
  destruct (phone_number_id_of body) as [bpid |] eqn:Hp.
  2: { unfold webhook, perform, lift. io_cbn. rewrite Hm. io_cbn. rewrite Hp. by io_cbn. }
  destruct (py_get message "type" JNull) as [type |] eqn:Ht.
  2: { unfold webhook, perform, lift. io_cbn. rewrite Hm. io_cbn. rewrite Hp. io_cbn.
       rewrite Ht. by io_cbn. }
  destruct (py_eq_str type "text") eqn:Htext.
  { unfold webhook, perform, lift. io_cbn. rewrite Hm. io_cbn. rewrite Hp. io_cbn.
    rewrite Ht. io_cbn. rewrite Htext. by io_cbn. }
  destruct (py_eq_str type "image") eqn:Himage.
  2: { unfold webhook, perform, lift. io_cbn. rewrite Hm. io_cbn. rewrite Hp. io_cbn.
       rewrite Ht. io_cbn. rewrite Htext, Himage. by io_cbn. }
  destruct (image_fields message) as [[[image_id caption] ext] |] eqn:Hf.
  - by destruct (webhook_image_run TAGS cfg w h body _ _ _ _ _ _ Hm Hp Ht Himage Hf) as [_ ->].
  - unfold webhook, perform, lift. io_cbn. rewrite Hm. io_cbn. rewrite Hp. io_cbn.
    rewrite Ht. io_cbn. rewrite Htext, Himage. unfold image_branch, lift. rewrite Hf.
    by io_cbn.
Qed.

(** C3. On every body of the shape the platform posts, the handler returns
    [{"status": "ok"}], whatever the Graph API, the disk and the EXIF
    reader answer (second part).  More precisely, on any JSON body it
    returns [{"status": "ok"}] exactly when the lookups of lines 80 to 90
    raise nothing on it (first part), and these raise nothing on a body of
    the platform's shape. *)
Theorem webhook_ok_iff_fields_resolve h body :
  (outcome w h (webhook TAGS cfg (Request (OK body))) = OK status_ok
   <-> fields_resolve body = true)
  /\ (platform_shaped body = true ->
      outcome w h (webhook TAGS cfg (Request (OK body))) = OK status_ok).
Proof.
  split; [apply webhook_ok_iff |].
  intros Hs. by apply webhook_ok_iff, platform_shaped_resolves.
Qed.

(** C10, amended. When the message found in the body is a dictionary whose
    type is not "image" (it may be "text", or missing, as in an empty
    body), the handler writes no file and makes no HTTP call, and it
    returns [{"status": "ok"}] provided the lookup of the phone number id
    on line 81 raises nothing. *)
Theorem non_image_no_effects h body message type :
  message_of body = OK message ->
  py_get message "type" JNull = OK type ->
  py_eq_str type "image" = false ->
  let tr := trace w h (webhook TAGS cfg (Request (OK body))) in
  List.filter is_write tr = []
  /\ List.filter is_http tr = []
  /\ (returned (phone_number_id_of body) = true ->
      outcome w h (webhook TAGS cfg (Request (OK body))) = OK status_ok).
Proof.
  intros Hm Ht Hi tr. subst tr.
  unfold webhook, perform, lift. io_cbn. rewrite Hm. io_cbn.
  destruct (phone_number_id_of body) as [bpid |]; io_cbn; [| done].
  rewrite Ht. io_cbn. rewrite Hi.
  by destruct (py_eq_str type "text"); io_cbn.
Qed.

End Answer.

(** ** The properties on sample requests *)

Example image_payload_shaped : platform_shaped (image_payload "M1" "image/jpeg") = true.
Proof. reflexivity. Qed.

Example text_payload_shaped : platform_shaped text_payload = true.
Proof. reflexivity. Qed.

Example calm_run_accesses :
  accesses calm_run =
    [Written "images/image_1700000000.5.jpeg"; Read "images/image_1700000000.5.jpeg"].
Proof. reflexivity. Qed.

(** C2, as stated, fails for the metadata extraction: when PIL cannot read
    the saved file, the guard of the handler catches nothing (the block runs
    to its last line), the failure is logged inside [get_image_metadata],
    and the reply to the sender carries its text. *)
Lemma exif_failure_reaches_sender :
  let run := trace (unreadable_world "1700000000.5") []
               (webhook sample_TAGS sample_config (image_request "M1" "image/jpeg")) in
  let failure := "cannot identify image file" in
  processed_without_error run = true
  /\ run !! 7%nat = Some (ELog ERROR [Lit "Error extracting metadata: "; Lit failure])
  /\ run !! 9%nat =
       Some (EPost (messages_url (JStr "106540352242922")) "Bearer EAAGtoken123"
               (TextMessage (JStr "16505551234")
                  (response_message (JStr "Receipt") [(TagName "error", failure)])
                  (JStr "wamid.M1"))
               (OK (Response 200 [] (OK (JObj []))))).
Proof. by split_and!. Qed.

(** An image request while the Graph API is unreachable: the failed lookup
    is logged and the handler answers as ever. *)
Lemma image_failures_caught_offline :
  let w := offline_world "1700000000.5" in
  let body := image_payload "M1" "image/jpeg" in
  let failure := Exn (LibraryError "httpx.ConnectError") "All connection attempts failed" in
  outcome w [] (webhook sample_TAGS sample_config (Request (OK body))) = OK status_ok
  /\ trace w [] (webhook sample_TAGS sample_config (Request (OK body))) =
       [incoming body;
        ENow "1700000000.5";
        EGet [Lit graph; Val (JStr "M1")] "Bearer EAAGtoken123" (Err failure);
        ELog ERROR (error_processing failure)].
Proof.
  pose proof (image_failures_caught sample_TAGS sample_config
                (offline_world "1700000000.5") [] (image_payload "M1" "image/jpeg")
                (image_message "M1" "image/jpeg") (JStr "106540352242922")
                (JStr "M1") (JStr "Receipt") "jpeg"
                eq_refl eq_refl eq_refl eq_refl) as (Hout & Htr & _).
  exact (conj Hout Htr).
Defined.

(** An image notification as the platform posts it: the handler returns
    [{"status": "ok"}], here with the Graph API out of reach. *)
Lemma webhook_ok_on_image_payload :
  platform_shaped (image_payload "M1" "image/jpeg") = true
  /\ outcome (offline_world "1700000000.5") []
       (webhook sample_TAGS sample_config (image_request "M1" "image/jpeg"))
     = OK status_ok.
Proof.
  split; [reflexivity |].
  apply (proj2 (webhook_ok_iff_fields_resolve sample_TAGS sample_config
                  (offline_world "1700000000.5") [] (image_payload "M1" "image/jpeg"))).
  reflexivity.
Defined.

(** Off the platform's shape the handler can raise: an image message whose
    MIME type has no "/" makes line 90 raise [IndexError], outside the
    guard. *)
Lemma webhook_raises_on_bare_mime_type :
  platform_shaped (image_payload "M1" "jpeg") = false
  /\ outcome (calm_world "1700000000.5") []
       (webhook sample_TAGS sample_config (image_request "M1" "jpeg"))
     = Err (Exn IndexError "list index out of range").
Proof. by split. Qed.

Example webhook_raises_on_empty_entry :
  outcome (calm_world "1700000000.5") []
    (webhook sample_TAGS sample_config (Request (OK (JObj [("entry", JList [])]))))
  = Err (Exn IndexError "list index out of range").
Proof. reflexivity. Qed.

Example webhook_raises_on_missing_image :
  outcome (calm_world "1700000000.5") []
    (webhook sample_TAGS sample_config
       (Request (OK (envelope (JObj [("messages", JList [JObj [("type", JStr "image")]])])))))
  = Err (Exn KeyError "'image'").
Proof. reflexivity. Qed.

Lemma image_steps_in_order_calm :
  processed_without_error calm_run = true
  /\ length (List.filter is_step calm_run) = 6.
Proof.
  split; [reflexivity |].
  destruct (image_steps_in_order sample_TAGS sample_config
              (calm_world "1700000000.5") [] (image_payload "M1" "image/jpeg") eq_refl)
    as (message & bpid & image_id & caption & ext & timestamp & r1 & media
        & media_url & r2 & x & to & message_id & r3 & r4 & H).
  destruct H as (_ & _ & _ & _ & _ & _ & _ & _ & _ & Hsteps).
  exact (f_equal length Hsteps).
Defined.

(** C5, as stated, fails: the calm run goes through without an exception
    and makes four HTTP calls, not two. *)
Lemma calm_run_http_calls_not_two :
  processed_without_error calm_run = true
  /\ length (List.filter is_http calm_run) <> 2.
Proof. split; [reflexivity | discriminate]. Qed.

Lemma image_four_http_calls_calm :
  processed_without_error calm_run = true
  /\ length (List.filter is_http calm_run) = 4.
Proof.
  split; [reflexivity |].
  exact (proj1 (image_four_http_calls sample_TAGS sample_config
                  (calm_world "1700000000.5") [] (image_payload "M1" "image/jpeg")
                  eq_refl)).
Defined.

(** C6, as stated, fails: the file the calm run saved is read again, right
    after it was written. *)
Lemma calm_run_reads_saved_file :
  exists path,
    saved calm_run = [path]
    /\ calm_run !! 4%nat = Some (EWrite path [xff; xd8; xff; xe1] (OK tt))
    /\ calm_run !! 6%nat =
         Some (EExif path (OK (Some [(271, "Canon"); (272, "EOS 80D"); (37510, "b''")]%Z))).
Proof. exists "images/image_1700000000.5.jpeg". by split_and!. Qed.

(** C7, as stated, fails: two distinct requests that read the same time
    write the same file, the second over the first. *)
Lemma same_reading_same_name :
  let w := calm_world "1700000000.5" in
  let run1 := trace w [] (webhook sample_TAGS sample_config (image_request "M1" "image/jpeg")) in
  let run2 := trace w run1 (webhook sample_TAGS sample_config (image_request "M2" "image/jpeg")) in
  image_request "M1" "image/jpeg" <> image_request "M2" "image/jpeg"
  /\ saved run1 = ["images/image_1700000000.5.jpeg"]
  /\ saved run2 = ["images/image_1700000000.5.jpeg"].
Proof. split_and!; [discriminate | reflexivity | reflexivity]. Qed.

Lemma distinct_readings_distinct_names_later :
  let run1 := trace later_world []
                (webhook sample_TAGS sample_config (image_request "M1" "image/jpeg")) in
  let run2 := trace later_world run1
                (webhook sample_TAGS sample_config (image_request "M2" "image/jpeg")) in
  (In (Written "images/image_1700000000.5.jpeg") (accesses run1)
   /\ In (Written "images/image_1700000001.25.jpeg") (accesses run2)
   /\ In "1700000000.5" (clock run1)
   /\ In "1700000001.25" (clock run2))
  /\ "images/image_1700000000.5.jpeg" <> "images/image_1700000001.25.jpeg".
Proof.
  intros run1 run2.
  assert (In (Written "images/image_1700000000.5.jpeg") (accesses run1)) as H1
    by (left; reflexivity).
  assert (In (Written "images/image_1700000001.25.jpeg") (accesses run2)) as H2
    by (left; reflexivity).
  assert (In "1700000000.5" (clock run1)) as H3 by (left; reflexivity).
  assert (In "1700000001.25" (clock run2)) as H4 by (left; reflexivity).
  split; [by split_and! |].
  apply (distinct_readings_distinct_names sample_TAGS sample_config later_world
           [] (image_request "M1" "image/jpeg")
           run1 (image_request "M2" "image/jpeg")
           _ _ "1700000000.5" "1700000001.25" H1 H2 H3 H4);
    [reflexivity | reflexivity | discriminate].
Defined.

(** C10, as stated, fails: here the message found is the default [{}], of
    no type, and line 81 raises on the [metadata] that is not a dictionary. *)
Lemma non_image_raises_on_metadata :
  let body := envelope (JObj [("metadata", JInt 5)]) in
  message_of body = OK (JObj [])
  /\ py_get (JObj []) "type" JNull = OK JNull
  /\ py_eq_str JNull "image" = false
  /\ outcome (calm_world "1700000000.5") []
       (webhook sample_TAGS sample_config (Request (OK body)))
     = Err (Exn AttributeError "'int' object has no attribute 'get'").
Proof. by split_and!. Qed.

Lemma non_image_no_effects_text :
  let run := trace (calm_world "1700000000.5") []
               (webhook sample_TAGS sample_config (Request (OK text_payload))) in
  List.filter is_write run = []
  /\ List.filter is_http run = []
  /\ (returned (phone_number_id_of text_payload) = true ->
      outcome (calm_world "1700000000.5") []
        (webhook sample_TAGS sample_config (Request (OK text_payload))) = OK status_ok).
Proof.
  exact (non_image_no_effects sample_TAGS sample_config (calm_world "1700000000.5")
           [] text_payload _ (JStr "text") eq_refl eq_refl eq_refl).
Defined.

Example empty_payload_ok :
  trace (calm_world "1700000000.5") [] (webhook sample_TAGS sample_config (Request (OK (JObj []))))
  = [incoming (JObj [])]
  /\ outcome (calm_world "1700000000.5") []
       (webhook sample_TAGS sample_config (Request (OK (JObj [])))) = OK status_ok.
Proof. by split. Qed.

(** * Further properties *)

(** ** The file extension of line 90 *)

Lemma count_char_app c s t :
  count_char c (s +:+ t) = count_char c s + count_char c t.
Proof.
  induction s as [| d s IH]; [done |].
  change (String d s +:+ t) with (String d (s +:+ t)). cbn [count_char].
  rewrite IH. lia.
Qed.

Lemma split_on_pieces sep s : Forall (fun p => count_char sep p = 0) (split_on sep s).
Proof.
  induction s as [| c s IH]; cbn [split_on]; [by repeat constructor |].
  destruct (Ascii.eqb c sep) eqn:E; [by constructor |].
  destruct (split_on sep s) as [| p ps]; [repeat constructor; cbn; by rewrite E |].
  inversion IH as [| ? ? Hp Hps]; subst.
  constructor; [| done]. cbn. by rewrite E, Hp.
Qed.

Lemma join_cons sep p q qs :
  join sep (p :: q :: qs) = p +:+ String sep (join sep (q :: qs)).
Proof. reflexivity. Qed.

Lemma join_split_on sep s : join sep (split_on sep s) = s.
Proof.
  induction s as [| c s IH]; [done |]. cbn [split_on].
  destruct (Ascii.eqb_spec c sep) as [-> | Hne].
  - destruct (split_on_cons sep s) as (p & ps & E). rewrite E in *.
    rewrite join_cons, IH. reflexivity.
  - destruct (split_on sep s) as [| p [| q qs]].
    + cbn in IH. by subst.
    + cbn in *. by subst.
    + rewrite join_cons in *. by rewrite <- IH.
Qed.

(** X1. When lines 86 to 90 raise nothing, the file extension is the part of
    the MIME type between its first and its second slash (or its end): the
    MIME type reads [a/ext] or [a/ext/...], and neither [a] nor the
    extension holds a slash.  The id is [message["image"]["id"]] and the
    caption is the one of the image, or "No caption" when it has none. *)
Theorem image_fields_extension message image_id caption ext :
  image_fields message = OK (image_id, caption, ext) ->
  exists image a,
    py_item message "image" = OK image
    /\ py_item image "id" = OK image_id
    /\ py_get image "caption" (JStr "No caption") = OK caption
    /\ no_slash a = true /\ no_slash ext = true
    /\ (py_item image "mime_type" = OK (JStr (a +:+ "/" +:+ ext))
        \/ exists rest,
             py_item image "mime_type" = OK (JStr (a +:+ "/" +:+ ext +:+ "/" +:+ rest))).
Proof.
  unfold image_fields. cbn.
  destruct (py_item message "image") as [image |] eqn:Himage; cbn; [| done].
  destruct (py_item image "id") as [i |] eqn:Hid; cbn; [| done].
  destruct (py_item image "mime_type") as [mime |] eqn:Hmime; cbn; [| done].
  destruct (py_get image "caption" (JStr "No caption")) as [cap |] eqn:Hcap; cbn; [| done].
  destruct mime as [| | | | s | |]; cbn; try done.
  pose proof (split_on_pieces "/"%char s) as Hp.
  pose proof (join_split_on "/"%char s) as Hj.
  destruct (split_on "/"%char s) as [| a [| e ps]]; cbn; try done.
  intros [= -> -> ->].
  inversion Hp as [| ? ? Ha Hps]; subst. inversion Hps as [| ? ? He Hps']; subst.
  exists image, a. split_and!; try done.
  - unfold no_slash. by rewrite Ha.
  - unfold no_slash. by rewrite He.
  - destruct ps as [| q qs]; [by left | right].
    exists (join "/"%char (q :: qs)). by rewrite Hmime, !join_cons.
Qed.

Lemma split_on_no_sep sep s : count_char sep s = 0 -> split_on sep s = [s].
Proof.
  induction s as [| c s IH]; cbn; [done |].
  destruct (Ascii.eqb c sep); [done |]. intros Hs. by rewrite IH.
Qed.

Lemma split_on_app sep a s :
  count_char sep a = 0 -> split_on sep (a +:+ String sep s) = a :: split_on sep s.
Proof.
  induction a as [| c a IH].
  - intros _. change ("" +:+ String sep s) with (String sep s).
    cbn [split_on]. by rewrite Ascii.eqb_refl.
  - change (String c a +:+ String sep s) with (String c (a +:+ String sep s)).
    cbn [split_on count_char]. destruct (Ascii.eqb c sep); [done |].
    intros Ha. by rewrite IH.
Qed.

(** X2. An image message whose [image] carries an [id] and a MIME type
    [a/b], with no slash in [a] or [b], resolves to that id, to the
    extension [b], and to the caption of the image, which is "No caption"
    exactly when the image has no "caption" key (a caption that is null
    stays null). *)
Theorem image_fields_of_mime_type message image image_id a b :
  dict_get message "image" = Some (JObj image) ->
  dict_get image "id" = Some image_id ->
  dict_get image "mime_type" = Some (JStr (a +:+ "/" +:+ b)) ->
  no_slash a = true ->
  no_slash b = true ->
  image_fields (JObj message) =
    OK (image_id,
        match dict_get image "caption" with
        | Some caption => caption
        | None => JStr "No caption"
        end,
        b).
Proof.
  unfold no_slash. intros Hi Hid Hm Ha%Nat.eqb_eq Hb%Nat.eqb_eq.
  unfold image_fields, py_item, py_get. rewrite Hi. cbn. rewrite Hid. cbn.
  rewrite Hm. cbn.
  change (a +:+ "/" +:+ b) with (a +:+ String "/"%char b).
  by rewrite split_on_app, split_on_no_sep.
Qed.

(** ** The metadata dictionary *)

Lemma tag_eqb_refl k : tag_eqb k k = true.
Proof. destruct k; cbn; [apply String.eqb_refl | apply Z.eqb_refl]. Qed.

Lemma tag_eqb_neq a b : tag_eqb a b = false -> a <> b.
Proof. intros E ->. by rewrite tag_eqb_refl in E. Qed.

Lemma meta_get_dict_set m k v k' :
  meta_get (dict_set m k v) k' = if tag_eqb k k' then Some v else meta_get m k'.
Proof.
  induction m as [| [k0 v0] m IH]; cbn.
  - by destruct (tag_eqb k k').
  - destruct (tag_eqb k0 k) eqn:E0; cbn.
    + apply tag_eqb_eq in E0 as ->. by destruct (tag_eqb k k').
    + destruct (tag_eqb k0 k') eqn:E1; [| exact IH].
      apply tag_eqb_eq in E1 as ->.
      destruct (tag_eqb k k') eqn:E2; [| done].
      apply tag_eqb_eq in E2 as ->. by rewrite tag_eqb_refl in E0.
Qed.

Lemma dict_set_keys m k v :
  map fst (dict_set m k v) =
    match meta_get m k with
    | Some _ => map fst m
    | None => map fst m ++ [k]
    end.
Proof.
  induction m as [| [k0 v0] m IH]; cbn; [done |].
  destruct (tag_eqb k0 k); cbn; [done |].
  rewrite IH. by destruct (meta_get m k).
Qed.

Lemma meta_get_None m k : meta_get m k = None -> ~ In k (map fst m).
Proof.
  induction m as [| [k0 v0] m IH]; cbn; [tauto |].
  destruct (tag_eqb k0 k) eqn:E; [done |].
  intros Hm [-> | Hin]; [by rewrite tag_eqb_refl in E | by apply IH].
Qed.

Lemma dict_set_NoDup m k v : NoDup (map fst m) -> NoDup (map fst (dict_set m k v)).
Proof.
  intros Hm. rewrite dict_set_keys.
  destruct (meta_get m k) eqn:E; [done |].
  apply NoDup_app. split_and!; [done | | repeat constructor; set_solver].
  intros x Hx ->%list_elem_of_singleton.
  by apply (meta_get_None m k E), list_elem_of_In.
Qed.

Section MetadataDictionary.

Variable TAGS : Z -> option string.

Lemma fold_add_tag_NoDup items : forall acc,
  NoDup (map fst acc) -> NoDup (map fst (fold_left (add_tag TAGS) items acc)).
Proof.
  induction items as [| item items IH]; intros acc Hacc; [done |].
  apply IH. by apply dict_set_NoDup.
Qed.

Lemma find_snoc {A : Type} (p : A -> bool) l x :
  List.find p (l ++ [x]) =
    match List.find p l with
    | Some y => Some y
    | None => if p x then Some x else None
    end.
Proof.
  induction l as [| y l IH]; cbn; [done |]. by destruct (p y).
Qed.

Lemma fold_add_tag_get items k : forall acc,
  meta_get (fold_left (add_tag TAGS) items acc) k =
    match List.find (fun item => tag_eqb (tag_of TAGS item.1) k) (rev items) with
    | Some item => Some item.2
    | None => meta_get acc k
    end.
Proof.
  induction items as [| item items IH]; intros acc; [done |].
  cbn [fold_left rev]. rewrite IH, find_snoc.
  destruct (List.find _ (rev items)); [done |].
  unfold add_tag. rewrite meta_get_dict_set.
  by destruct (tag_eqb (tag_of TAGS item.1) k).
Qed.

(** X3. The metadata dictionary built from EXIF data has each tag once,
    however many EXIF entries share it (two ids may carry the same name). *)
Theorem exif_metadata_keys_unique (items : list (Z * string)) :
  NoDup (map fst (exif_metadata TAGS items)).
Proof. apply fold_add_tag_NoDup. constructor. Qed.

(** X4. Looking a tag up in the metadata dictionary gives the value of the
    last EXIF entry with that tag, and nothing for a tag no entry has: a
    later entry replaces an earlier one of the same tag. *)
Theorem exif_metadata_lookup (items : list (Z * string)) (k : tag) :
  meta_get (exif_metadata TAGS items) k = last_value TAGS items k.
Proof.
  unfold exif_metadata, last_value. rewrite fold_add_tag_get.
  by destruct (List.find _ (rev items)).
Qed.

End MetadataDictionary.

(** ** What [GET /debug] gives away *)

Lemma py_prefix_short n s : String.length s <= n -> py_prefix n s = s.
Proof.
  revert s. induction n as [| n IH]; intros [| c s]; cbn; try done; [lia |].
  intros Hs. rewrite IH; [done | lia].
Qed.

(** X5. A [GRAPH_API_TOKEN] of one to five characters is disclosed whole by
    the debug endpoint, followed by "...". *)
Theorem debug_info_short_token (cfg : config) (w : env) (h : list event) token :
  GRAPH_API_TOKEN cfg = Some token ->
  0 < String.length token <= 5 ->
  exists port,
    outcome w h (debug_info cfg) =
      OK (JObj [("WEBHOOK_VERIFY_TOKEN", json_option (WEBHOOK_VERIFY_TOKEN cfg));
                ("GRAPH_API_TOKEN", JStr (token +:+ "..."));
                ("PORT", json_option port)]).
Proof.
  intros Ht [Hpos Hlen]. unfold debug_info, perform. io_cbn. rewrite Ht. eexists.
  destruct token as [| c token]; [cbn in Hpos; lia |].
  by rewrite py_prefix_short.
Qed.

(** X6. The debug endpoint gives away nothing of [GRAPH_API_TOKEN] past its
    fifth character: two configurations that differ only in the tokens, both
    non-empty and with the same first five characters, get the same run. *)
Theorem debug_info_hides_rest (w : env) (h : list event) secret token1 token2 :
  token1 <> "" -> token2 <> "" ->
  py_prefix 5 token1 = py_prefix 5 token2 ->
  trace w h (debug_info (Config secret (Some token1))) =
    trace w h (debug_info (Config secret (Some token2)))
  /\ outcome w h (debug_info (Config secret (Some token1))) =
     outcome w h (debug_info (Config secret (Some token2))).
Proof.
  intros H1 H2 Hp. unfold debug_info, perform. io_cbn. cbn [GRAPH_API_TOKEN WEBHOOK_VERIFY_TOKEN].
  destruct token1 as [| c1 t1]; [done |]. destruct token2 as [| c2 t2]; [done |].
  by rewrite Hp.
Qed.

(** ** What [GET /webhook] gives away *)

(** X7. A verification request that is refused learns nothing about the
    secret: against any two secrets that both differ from the presented
    token (or are unset) the run is the same, log lines included. *)
Theorem verify_webhook_refusal_independent (cfg1 cfg2 : config) (w : env) (h : list event)
    (hub_mode hub_verify_token hub_challenge : string) :
  WEBHOOK_VERIFY_TOKEN cfg1 <> Some hub_verify_token ->
  WEBHOOK_VERIFY_TOKEN cfg2 <> Some hub_verify_token ->
  trace w h (verify_webhook cfg1 hub_mode hub_verify_token hub_challenge) =
    trace w h (verify_webhook cfg2 hub_mode hub_verify_token hub_challenge)
  /\ outcome w h (verify_webhook cfg1 hub_mode hub_verify_token hub_challenge) =
     outcome w h (verify_webhook cfg2 hub_mode hub_verify_token hub_challenge).
Proof.
  intros H1 H2. unfold verify_webhook.
  assert (forall cfg, WEBHOOK_VERIFY_TOKEN cfg <> Some hub_verify_token ->
            match WEBHOOK_VERIFY_TOKEN cfg with
            | Some secret => String.eqb hub_verify_token secret
            | None => false
            end = false) as Hno.
  { intros cfg Hc. destruct (WEBHOOK_VERIFY_TOKEN cfg) as [secret |]; [| done].
    destruct (String.eqb_spec hub_verify_token secret); [congruence | done]. }
  rewrite !Hno by done. by rewrite !andb_false_r.
Qed.

(** ** [download_and_save_image] *)

Section Download.

Variable cfg : config.
Variable w : env.

Ltac unfold_download :=
  unfold download_and_save_image, call, perform, lift; io_cbn.

(** X8. When [download_and_save_image] returns, it returns
    [images/<filename>], and it has made two GET requests, the second to
    the "url" of the JSON answer to the first, and written the content of
    the second answer to that path: nothing else, and no look at the status
    of either answer. *)
Theorem download_and_save_image_returns h image_id filename path :
  outcome w h (download_and_save_image cfg image_id filename) = OK path ->
  path = images_path filename
  /\ exists r1 media media_url r2,
       json_body r1 = OK media
       /\ py_item media "url" = OK media_url
       /\ trace w h (download_and_save_image cfg image_id filename) =
            [EGet [Lit graph; Val image_id] (bearer cfg) (OK r1);
             EGet [Val media_url] (bearer cfg) (OK r2);
             EWrite path (content r2) (OK tt);
             ELog INFO [Lit "Image saved: "; Lit filename]].
Proof.
  unfold_download. repeat answer; try discriminate; intros [= <-].
  split; [done |].
  repeat match goal with u : unit |- _ => destruct u end.
  do 4 eexists. split_and!; [eassumption | eassumption | reflexivity].
Qed.

(** X9. When [download_and_save_image] raises, it has stopped at the first
    step that failed and saved nothing: the lookup raised; or its answer was
    not JSON or had no "url"; or the download raised; or the write raised.
    The exception is the one of that step. *)
Theorem download_and_save_image_raises h image_id filename e :
  outcome w h (download_and_save_image cfg image_id filename) = Err e ->
  let tr := trace w h (download_and_save_image cfg image_id filename) in
  let lookup := EGet [Lit graph; Val image_id] (bearer cfg) in
  saved tr = []
  /\ (tr = [lookup (Err e)]
      \/ (exists r1, tr = [lookup (OK r1)]
            /\ (json_body r1 ≫= fun media => py_item media "url") = Err e)
      \/ (exists r1 media_url, tr = [lookup (OK r1); EGet [Val media_url] (bearer cfg) (Err e)])
      \/ (exists r1 media_url r2,
            tr = [lookup (OK r1); EGet [Val media_url] (bearer cfg) (OK r2);
                  EWrite (images_path filename) (content r2) (Err e)])).
Proof.
  unfold_download. repeat answer; try discriminate; intros [= <-].
  all: split; [reflexivity |].
  - right; right; right. eauto.
  - right; right; left. eauto.
  - right; left. eexists. split; [reflexivity |].
    by repeat match goal with H : _ = _ |- _ => rewrite H; cbn end.
  - right; left. eexists. split; [reflexivity |].
    by repeat match goal with H : _ = _ |- _ => rewrite H; cbn end.
  - by left.
Qed.

End Download.

(** ** Every run of [POST /webhook] *)

Lemma steps_app tr1 tr2 : steps (tr1 ++ tr2) = steps tr1 ++ steps tr2.
Proof. apply List.filter_app. Qed.

Lemma authorizations_steps tr : authorizations (steps tr) = authorizations tr.
Proof.
  induction tr as [| ev tr IH]; [done |].
  destruct ev; cbn; try done; by f_equal.
Qed.

Lemma posts_steps tr : posts (steps tr) = posts tr.
Proof.
  induction tr as [| ev tr IH]; [done |].
  destruct ev; cbn; try done; by f_equal.
Qed.

Lemma saved_steps tr : saved (steps tr) = saved tr.
Proof.
  induction tr as [| ev tr IH]; [done |].
  destruct ev as [| | | | p d [[] |] | |]; cbn; try done; by f_equal.
Qed.

Lemma accesses_steps tr : accesses (steps tr) = accesses tr.
Proof.
  induction tr as [| ev tr IH]; [done |].
  destruct ev; cbn; try done; by f_equal.
Qed.



Lemma fs_after_steps tr : forall fs : gmap string (list byte),
  fs_after fs (steps tr) = fs_after fs tr.
Proof.
  induction tr as [| ev tr IH]; intros fs; [done |].
  destruct ev; cbn; try apply IH.
Qed.

Lemma fs_after_app tr1 tr2 (fs : gmap string (list byte)) :
  fs_after fs (tr1 ++ tr2) = fs_after (fs_after fs tr1) tr2.
Proof. apply foldl_app. Qed.

Lemma no_slash_app s t : no_slash s = true -> no_slash t = true -> no_slash (s +:+ t) = true.
Proof.
  unfold no_slash. intros Hs%Nat.eqb_eq Ht%Nat.eqb_eq.
  by rewrite count_char_app, Hs, Ht.
Qed.

Lemma image_fields_no_slash message image_id caption ext :
  image_fields message = OK (image_id, caption, ext) -> no_slash ext = true.
Proof.
  unfold image_fields. cbn.
  destruct (py_item message "image") as [image |]; cbn; [| done].
  destruct (py_item image "id"); cbn; [| done].
  destruct (py_item image "mime_type") as [mime |]; cbn; [| done].
  destruct (py_get image "caption" (JStr "No caption")); cbn; [| done].
  destruct mime as [| ? | ? | ? | s | ? | ?]; cbn; try done.
  pose proof (split_on_pieces "/"%char s) as Hp.
  destruct (split_on "/"%char s) as [| p0 [| p1 ps]]; cbn; try done.
  intros [= _ _ <-]. inversion Hp as [| ? ? _ Hps]; subst.
  inversion Hps as [| ? ? He _]; subst. unfold no_slash. by rewrite He.
Qed.

Lemma no_writes_after rest :
  List.filter is_write rest = [] ->
  saved rest = [] /\ forall path, ~ In (Written path) (accesses rest).
Proof.
  induction rest as [| ev rest IH]; [by split; [| intros ? []] |].
  destruct ev; cbn; try discriminate; intros Hr; destruct (IH Hr) as [Hs Ha];
    (split; [done |]); intros q Hq; try (by eapply Ha).
  destruct Hq as [Hq | Hq]; [discriminate | by eapply Ha].
Qed.

Section EveryRun.

Variable TAGS : Z -> option string.
Variable cfg : config.
Variable w : env.

(** A run of the handler either takes no step outside the process, or is
    the run of the guarded block of an image message between log lines. *)
Lemma webhook_steps h req :
  let tr := trace w h (webhook TAGS cfg req) in
  (steps tr = [] /\ clock tr = [])
  \/ exists body message bpid image_id caption ext,
       request_json req = OK body
       /\ message_of body = OK message
       /\ phone_number_id_of body = OK bpid
       /\ py_get message "type" JNull = OK (JStr "image")
       /\ image_fields message = OK (image_id, caption, ext)
       /\ outcome w h (webhook TAGS cfg req) = OK status_ok
       /\ let timestamp := w _ (h ++ [incoming body]) Now in
          let h' := h ++ [incoming body; ENow timestamp] in
          let p := process_image TAGS cfg message bpid image_id caption
                     (filename_of timestamp ext) in
          clock tr = [timestamp]
          /\ steps tr = steps (trace w h' p)
          /\ processed_without_error tr = returned (outcome w h' p).
Proof.
  destruct req as [[body | e]]; [| by left].
  intros tr. subst tr.
  destruct (webhook_cases TAGS cfg w h body)
    as [-> | [-> | (message & bpid & type & image_id & caption & ext
                    & Hm & Hp & Ht & Hi & Hf)]]; [by left | by left | right].
  destruct (webhook_image_run TAGS cfg w h body _ _ _ _ _ _ Hm Hp Ht Hi Hf) as [-> Hout].
  apply py_eq_str_eq in Hi as ->.
  exists body, message, bpid, image_id, caption, ext.
  split_and!; try done.
  cbv zeta.
  set (timestamp := w _ (h ++ [incoming body]) Now).
  set (h' := h ++ [incoming body; ENow timestamp]).
  set (p := process_image _ _ _ _ _ _ _).
  pose proof (process_image_files TAGS cfg w h' message bpid image_id caption
                (filename_of timestamp ext)) as [Hc _].
  pose proof (process_image_log TAGS cfg w h' message bpid image_id caption
                (filename_of timestamp ext)) as Hlog.
  cbv zeta in Hlog. fold p in Hc, Hlog.
  set (tail := match outcome w h' p with
               | OK _ => @nil event
               | Err e => [ELog ERROR (error_processing e)]
               end).
  assert (steps tail = [] /\ clock tail = [] /\ processed_without_error tail = false)
    as (Hs & Hk & Hl) by (subst tail; by destruct (outcome w h' p)).
  change (incoming body :: ENow timestamp :: trace w h' p ++ tail)
    with ([incoming body; ENow timestamp] ++ trace w h' p ++ tail).
  split_and!.
  - by rewrite !clock_app, Hc, Hk.
  - by rewrite !steps_app, Hs, app_nil_r.
  - unfold processed_without_error in *.
    by rewrite !existsb_app, Hlog, Hl, orb_false_r.
Qed.

Lemma process_image_calls h message bpid image_id caption filename :
  let tr := trace w h (process_image TAGS cfg message bpid image_id caption filename) in
  length (List.filter is_http tr) <= 4
  /\ length (List.filter is_write tr) <= 1
  /\ forall a, In a (authorizations tr) -> a = bearer cfg.
Proof.
  intros tr. subst tr. unfold_process.
  repeat answer; (split_and!; [cbn; lia | cbn; lia |]);
    intros header Hin; cbn in Hin; destruct_or?; by subst.
Qed.

Lemma process_image_posts h message bpid image_id caption filename :
  let tr := trace w h (process_image TAGS cfg message bpid image_id caption filename) in
  let path := images_path filename in
  (posts tr = [] /\ processed_without_error tr = false)
  \/ exists to body message_id b,
       py_item message "from" = OK to
       /\ py_item message "id" = OK message_id
       /\ accesses tr = [Written path; Read path]
       /\ saved tr = [path]
       /\ (posts tr = [(TextMessage to body message_id, b)]
           \/ (posts tr = [(TextMessage to body message_id, true);
                           (ReadReceipt message_id, b)]
               /\ processed_without_error tr = b)).
Proof.
  intros tr path. subst tr path. unfold_process.
  repeat answer; try (by left); right;
    do 4 eexists; (split_and!; [reflexivity | reflexivity | reflexivity | reflexivity |]);
    first [by left | by right].
Qed.

Lemma process_image_content h message bpid image_id caption filename :
  let tr := trace w h (process_image TAGS cfg message bpid image_id caption filename) in
  let path := images_path filename in
  saved tr = []
  \/ exists r1 media_url r2 rest,
       steps tr = EGet [Lit graph; Val image_id] (bearer cfg) (OK r1)
                  :: EGet [Val media_url] (bearer cfg) (OK r2)
                  :: EWrite path (content r2) (OK tt) :: rest
       /\ List.filter is_write rest = [].
Proof.
  intros tr path. subst tr path. unfold_process.
  repeat answer; try (by left); right;
    repeat match goal with u : unit |- _ => destruct u end;
    do 4 eexists; split; reflexivity.
Qed.


(** X11. Every HTTP call of a run carries [Bearer <GRAPH_API_TOKEN>] as its
    [Authorization] header: the two calls to the Graph API endpoint for
    messages, the lookup of the media, and also the download, which goes to
    whatever URL the answer to the lookup named. *)
Theorem webhook_calls_authorized h req a :
  In a (authorizations (trace w h (webhook TAGS cfg req))) -> a = bearer cfg.
Proof.
  rewrite <- authorizations_steps.
  destruct (webhook_steps h req)
    as [[Hs _] | (body & message & bpid & image_id & caption & ext
                  & _ & _ & _ & _ & _ & _ & _ & Hs & _)];
    rewrite Hs; [done |].
  rewrite authorizations_steps. apply process_image_calls.
Qed.

(** X12. Nothing is posted before the image is on disk and its EXIF data
    was read, and the read receipt is posted only after the summary reply
    went through: the posts of a run are none, or the reply alone, or the
    reply, which returned, and then the receipt.  The reply goes to
    [message["from"]] and both name [message["id"]]. *)
Theorem webhook_posts_in_order h req :
  let tr := trace w h (webhook TAGS cfg req) in
  posts tr = []
  \/ exists body message path to text message_id b,
       request_json req = OK body
       /\ message_of body = OK message
       /\ py_item message "from" = OK to
       /\ py_item message "id" = OK message_id
       /\ saved tr = [path]
       /\ accesses tr = [Written path; Read path]
       /\ (posts tr = [(TextMessage to text message_id, b)]
           \/ (posts tr = [(TextMessage to text message_id, true);
                           (ReadReceipt message_id, b)]
               /\ processed_without_error tr = b)).
Proof.
  intros tr.
  destruct (webhook_steps h req)
    as [[Hs _] | (body & message & bpid & image_id & caption & ext
                  & Hb & Hm & _ & _ & _ & _ & _ & Hs & Hl)]; fold tr in Hs.
  { left. by rewrite <- posts_steps, Hs. }
  fold tr in Hl. cbv zeta in Hs, Hl.
  set (timestamp := w _ (h ++ [incoming body]) Now) in *.
  set (h' := h ++ [incoming body; ENow timestamp]) in *.
  set (p := process_image _ _ _ _ _ _ _) in *.
  rewrite <- posts_steps, <- saved_steps, <- accesses_steps, Hs,
    posts_steps, saved_steps, accesses_steps, Hl.
  destruct (process_image_posts h' message bpid image_id caption
              (filename_of timestamp ext))
    as [[Hn _] | (to & text & message_id & b & Hf & Hi & Ha & Hsv & Hp)];
    [by left | right].
  fold p in Ha, Hsv, Hp.
  exists body, message, (images_path (filename_of timestamp ext)),
    to, text, message_id, b.
  split_and!; try done.
  destruct Hp as [Hp | [Hp Hb']]; [by left | right].
  split; [done |]. rewrite <- Hb'. symmetry. apply process_image_log.
Qed.

(** X13. When the handler raises, it has done nothing yet: no reading of
    the clock, no HTTP call, no file access.  Past the field lookups it
    never raises. *)
Theorem webhook_raises_before_any_step h req e :
  outcome w h (webhook TAGS cfg req) = Err e ->
  let tr := trace w h (webhook TAGS cfg req) in
  steps tr = [] /\ clock tr = [].
Proof.
  intros He tr.
  destruct (webhook_steps h req)
    as [? | (body & message & bpid & image_id & caption & ext
             & _ & _ & _ & _ & _ & Hout & _)]; [done | congruence].
Qed.

(** X14. An image message without a "from" or an "id" is never answered:
    whatever the world does, nothing is posted and the run does not reach
    its last line, yet the handler returns [{"status": "ok"}].  (The image
    is downloaded and saved first, all the same.) *)
Theorem image_without_sender_unanswered h body message bpid image_id caption ext e :
  message_of body = OK message ->
  phone_number_id_of body = OK bpid ->
  py_get message "type" JNull = OK (JStr "image") ->
  image_fields message = OK (image_id, caption, ext) ->
  py_item message "from" = Err e \/ py_item message "id" = Err e ->
  let tr := trace w h (webhook TAGS cfg (Request (OK body))) in
  posts tr = []
  /\ processed_without_error tr = false
  /\ outcome w h (webhook TAGS cfg (Request (OK body))) = OK status_ok.
Proof.
  intros Hm Hp Ht Hf Hmissing tr.
  destruct (webhook_image_run TAGS cfg w h body _ _ _ _ _ _ Hm Hp Ht eq_refl Hf)
    as [Htr Hout].
  set (timestamp := w _ (h ++ [incoming body]) Now) in *.
  set (h' := h ++ [incoming body; ENow timestamp]) in *.
  set (p := process_image _ _ _ _ _ _ _) in *.
  fold tr in Htr.
  destruct (process_image_posts h' message bpid image_id caption
              (filename_of timestamp ext))
    as [[Hn Hl] | (to & text & message_id & b & Hfrom & Hid & _)];
    [| destruct Hmissing; congruence].
  fold p in Hn, Hl.
  assert (returned (outcome w h' p) = false) as Hr
    by (rewrite <- Hl; symmetry; apply process_image_log).
  destruct (outcome w h' p) as [| e']; [done |].
  rewrite Htr. unfold posts, processed_without_error in *.
  change (incoming body :: ENow timestamp :: trace w h' p ++ [ELog ERROR (error_processing e')])
    with ([incoming body; ENow timestamp] ++ trace w h' p ++ [ELog ERROR (error_processing e')]).
  rewrite !omap_app, !existsb_app, Hn, Hl. by split_and!.
Qed.

(** X15. After a run, a file it saved holds exactly the bytes of the answer
    to the download request, whatever the file held before: the write
    replaces the content. *)
Theorem saved_file_holds_download h req (fs : gmap string (list byte)) path :
  let tr := trace w h (webhook TAGS cfg req) in
  In path (saved tr) ->
  exists media_url r,
    In (EGet [Val media_url] (bearer cfg) (OK r)) tr
    /\ fs_after fs tr !! path = Some (content r).
Proof.
  intros tr Hin.
  destruct (webhook_steps h req)
    as [[Hs _] | (body & message & bpid & image_id & caption & ext
                  & _ & _ & _ & _ & _ & _ & _ & Hs & _)]; fold tr in Hs.
  { by rewrite <- saved_steps, Hs in Hin. }
  cbv zeta in Hs.
  set (timestamp := w _ (h ++ [incoming body]) Now) in *.
  set (h' := h ++ [incoming body; ENow timestamp]) in *.
  set (p := process_image _ _ _ _ _ _ _) in *.
  destruct (process_image_content h' message bpid image_id caption
              (filename_of timestamp ext))
    as [Hn | (r1 & media_url & r2 & rest & Hsteps & Hrest)].
  { fold p in Hn. by rewrite <- saved_steps, Hs, saved_steps, Hn in Hin. }
  fold p in Hsteps.
  rewrite Hsteps in Hs. apply no_writes_after in Hrest as [Hsaved Hacc].
  rewrite <- saved_steps, Hs in Hin.
  change (In path (images_path (filename_of timestamp ext) :: saved rest)) in Hin.
  rewrite Hsaved in Hin. destruct Hin as [<- | []].
  exists media_url, r2. split.
  - assert (In (EGet [Val media_url] (bearer cfg) (OK r2)) (steps tr)) as Hg
      by (rewrite Hs; right; by left).
    by apply List.filter_In in Hg as [Hg _].
  - rewrite <- fs_after_steps, Hs.
    change (?a :: ?b :: ?c :: rest) with ([a; b; c] ++ rest).
    rewrite fs_after_app, fs_after_frame by apply Hacc.
    cbn. apply lookup_insert_eq.
Qed.

(** X16. A run never writes outside the [images] folder: as long as the
    reading of the clock holds no slash, every path written to is
    [images/<name>] with no slash in [<name>], whatever MIME type the
    message claims. *)
Theorem written_path_inside_images h req path :
  let tr := trace w h (webhook TAGS cfg req) in
  In (Written path) (accesses tr) ->
  (forall reading, In reading (clock tr) -> no_slash reading = true) ->
  exists name, path = "images/" +:+ name /\ no_slash name = true.
Proof.
  intros tr Hin Hclock.
  destruct (webhook_steps h req)
    as [[Hs _] | (body & message & bpid & image_id & caption & ext
                  & _ & _ & _ & _ & Hf & _ & Hc & Hs & _)]; fold tr in Hs.
  { by rewrite <- accesses_steps, Hs in Hin. }
  fold tr in Hc. cbv zeta in Hs, Hc.
  set (timestamp := w _ (h ++ [incoming body]) Now) in *.
  set (h' := h ++ [incoming body; ENow timestamp]) in *.
  set (p := process_image _ _ _ _ _ _ _) in *.
  rewrite <- accesses_steps, Hs, accesses_steps in Hin.
  assert (path = images_path (filename_of timestamp ext)) as ->.
  { destruct (process_image_files TAGS cfg w h' message bpid image_id caption
                (filename_of timestamp ext)) as (_ & [[Ha _] | [[Ha _] | [Ha _]]]);
      fold p in Ha; rewrite Ha in Hin; cbn in Hin; destruct_or?; by simplify_eq. }
  exists (filename_of timestamp ext). split; [done |].
  unfold filename_of. repeat apply no_slash_app; try done.
  - apply Hclock. rewrite Hc. by left.
  - by eapply image_fields_no_slash.
Qed.

(** X17. The defaults of line 80 cover a missing key and nothing else.  A
    body without an "entry" key is acknowledged with [{"status": "ok"}]
    after the one log line; a body whose "entry" is an empty list raises
    [IndexError], and one whose "entry" is null raises [TypeError], both
    after that log line and before anything else. *)
Theorem webhook_entry_default h (items : list (string * json)) :
  let body := JObj items in
  let tr := trace w h (webhook TAGS cfg (Request (OK body))) in
  let out := outcome w h (webhook TAGS cfg (Request (OK body))) in
  (dict_get items "entry" = None -> tr = [incoming body] /\ out = OK status_ok)
  /\ (dict_get items "entry" = Some (JList []) ->
      tr = [incoming body] /\ out = Err (Exn IndexError "list index out of range"))
  /\ (dict_get items "entry" = Some JNull ->
      tr = [incoming body]
      /\ out = Err (Exn TypeError "'NoneType' object is not subscriptable")).
Proof.
  intros body tr out. subst body tr out.
  unfold webhook, incoming, perform, lift, message_of, phone_number_id_of, value_of.
  io_cbn. cbn [py_get mbind result_mbind result_bind].
  destruct (dict_get items "entry") as [entry |] eqn:He; split_and!; try done.
  - intros [= ->]. by cbn.
  - intros [= ->]. by cbn.
Qed.

End EveryRun.

(** ** The further properties on sample inputs *)

Lemma image_fields_extension_sample :
  image_fields (image_message "M1" "image/jpeg") = OK (JStr "M1", JStr "Receipt", "jpeg")
  /\ no_slash "jpeg" = true.
Proof.
  split; [reflexivity |].
  destruct (image_fields_extension (image_message "M1" "image/jpeg")
              (JStr "M1") (JStr "Receipt") "jpeg" eq_refl)
    as (image & a & _ & _ & _ & _ & Hext & _).
  exact Hext.
Defined.

Lemma image_fields_of_mime_type_sample :
  image_fields
    (JObj [("type", JStr "image");
           ("image", JObj [("id", JStr "M7"); ("mime_type", JStr "image/svg+xml")])])
  = OK (JStr "M7", JStr "No caption", "svg+xml").
Proof.
  exact (image_fields_of_mime_type
           [("type", JStr "image");
            ("image", JObj [("id", JStr "M7"); ("mime_type", JStr "image/svg+xml")])]
           [("id", JStr "M7"); ("mime_type", JStr "image/svg+xml")]
           (JStr "M7") "image" "svg+xml" eq_refl eq_refl eq_refl eq_refl eq_refl).
Defined.

Lemma debug_info_short_token_sample :
  exists port,
    outcome (calm_world "0.0") [] (debug_info (Config (Some "s3cret") (Some "abc"))) =
      OK (JObj [("WEBHOOK_VERIFY_TOKEN", JStr "s3cret");
                ("GRAPH_API_TOKEN", JStr "abc...");
                ("PORT", json_option port)]).
Proof.
  apply (debug_info_short_token (Config (Some "s3cret") (Some "abc"))
           (calm_world "0.0") [] "abc" eq_refl).
  cbn. lia.
Defined.

Lemma debug_info_hides_rest_sample :
  outcome (calm_world "0.0") [] (debug_info (Config None (Some "EAAGtoken123"))) =
    outcome (calm_world "0.0") [] (debug_info (Config None (Some "EAAGt-another-token"))).
Proof.
  apply (debug_info_hides_rest (calm_world "0.0") [] None
           "EAAGtoken123" "EAAGt-another-token");
    [discriminate | discriminate | reflexivity].
Defined.

Lemma verify_webhook_refusal_independent_sample :
  trace (calm_world "0.0") [] (verify_webhook (Config (Some "s3cret") None) "subscribe" "guess" "42")
  = trace (calm_world "0.0") [] (verify_webhook (Config (Some "other") None) "subscribe" "guess" "42").
Proof.
  apply (verify_webhook_refusal_independent
           (Config (Some "s3cret") None) (Config (Some "other") None)
           (calm_world "0.0") [] "subscribe" "guess" "42");
    discriminate.
Defined.

Lemma download_and_save_image_returns_calm :
  outcome (calm_world "0.0") [] (download_and_save_image sample_config (JStr "M1") "x.jpeg")
  = OK "images/x.jpeg"
  /\ "images/x.jpeg" = images_path "x.jpeg".
Proof.
  split; [reflexivity |].
  apply (download_and_save_image_returns sample_config (calm_world "0.0") []
           (JStr "M1") "x.jpeg" "images/x.jpeg" eq_refl).
Defined.

Lemma download_and_save_image_raises_offline :
  saved (trace (offline_world "0.0") []
           (download_and_save_image sample_config (JStr "M1") "x.jpeg")) = [].
Proof.
  apply (download_and_save_image_raises sample_config (offline_world "0.0") []
           (JStr "M1") "x.jpeg"
           (Exn (LibraryError "httpx.ConnectError") "All connection attempts failed")
           eq_refl).
Defined.

Lemma webhook_calls_authorized_calm :
  In "Bearer EAAGtoken123" (authorizations calm_run)
  /\ "Bearer EAAGtoken123" = bearer sample_config.
Proof.
  assert (In "Bearer EAAGtoken123" (authorizations calm_run)) as Hin by (left; reflexivity).
  split; [exact Hin |].
  exact (webhook_calls_authorized sample_TAGS sample_config (calm_world "1700000000.5") []
           (image_request "M1" "image/jpeg") "Bearer EAAGtoken123" Hin).
Defined.

Lemma webhook_raises_before_any_step_bare_mime_type :
  steps (trace (calm_world "1700000000.5") []
           (webhook sample_TAGS sample_config (image_request "M1" "jpeg"))) = []
  /\ clock (trace (calm_world "1700000000.5") []
              (webhook sample_TAGS sample_config (image_request "M1" "jpeg"))) = [].
Proof.
  exact (webhook_raises_before_any_step sample_TAGS sample_config
           (calm_world "1700000000.5") [] (image_request "M1" "jpeg")
           (Exn IndexError "list index out of range") eq_refl).
Defined.

Lemma image_without_sender_unanswered_calm :
  let tr := trace (calm_world "1700000000.5") []
              (webhook sample_TAGS sample_config (Request (OK anonymous_image_payload))) in
  saved tr = ["images/image_1700000000.5.png"]
  /\ posts tr = []
  /\ processed_without_error tr = false
  /\ outcome (calm_world "1700000000.5") []
       (webhook sample_TAGS sample_config (Request (OK anonymous_image_payload)))
     = OK status_ok.
Proof.
  split; [reflexivity |].
  exact (image_without_sender_unanswered sample_TAGS sample_config
           (calm_world "1700000000.5") [] anonymous_image_payload
           (JObj [("id", JStr "wamid.M1");
                  ("type", JStr "image");
                  ("image", JObj [("mime_type", JStr "image/png"); ("id", JStr "M1")])])
           (JStr "106540352242922") (JStr "M1") (JStr "No caption") "png"
           (Exn KeyError "'from'")
           eq_refl eq_refl eq_refl eq_refl (or_introl eq_refl)).
Defined.

Lemma saved_file_holds_download_calm :
  exists media_url r,
    In (EGet [Val media_url] (bearer sample_config) (OK r)) calm_run
    /\ fs_after {["images/image_1700000000.5.jpeg" := [x00]]} calm_run
         !! "images/image_1700000000.5.jpeg" = Some (content r).
Proof.
  apply (saved_file_holds_download sample_TAGS sample_config (calm_world "1700000000.5") []
           (image_request "M1" "image/jpeg")
           {["images/image_1700000000.5.jpeg" := [x00]]}
           "images/image_1700000000.5.jpeg").
  left. reflexivity.
Defined.

Lemma written_path_inside_images_calm :
  exists name, "images/image_1700000000.5.jpeg" = "images/" +:+ name /\ no_slash name = true.
Proof.
  apply (written_path_inside_images sample_TAGS sample_config (calm_world "1700000000.5") []
           (image_request "M1" "image/jpeg") "images/image_1700000000.5.jpeg").
  - left. reflexivity.
  - intros reading [<- | []]. reflexivity.
Defined.

Example batch_of_two_images_saves_one :
  let body := envelope (JObj [("metadata", sample_metadata);
                              ("messages", JList [image_message "M1" "image/jpeg";
                                                  image_message "M2" "image/png"])]) in
  saved (trace (calm_world "1700000000.5") []
           (webhook sample_TAGS sample_config (Request (OK body))))
  = ["images/image_1700000000.5.jpeg"].
Proof. reflexivity. Qed.
